(** * Quote calculation engine of the shipment quote calculator

    A shallow embedding of the three backend services that make up the
    engine, and the properties its specification states about them:

    - [geocodeLocation]        (backend/src/services/geocoding.js),
    - [calculateDistance]      (backend/src/services/quoteCalculator.js),
    - [calculateQuoteAmount]   (backend/src/services/quoteCalculator.js).

    Number model.  A JavaScript number is modelled as [NaN] or an exact
    rational: every arithmetic operation of the source is carried out in
    the decimal arithmetic its rates and thresholds are written in, without
    binary64 rounding error, and the infinities are left out (the source
    only ever divides by the literals 100 and 1000.0).  [NaN] is kept
    because the source depends on it: [parseFloat] of an unset environment
    variable, a coordinate that does not parse, and a multiplier read from an
    inherited property all go through it.

    The runtime computes in binary64, so a computed product can sit a few
    units in the last place away from the exact one, and at a tie of the
    rounding to cents ([Math.round], [toFixed]) the two can round to
    different cents: 43.75 miles of flatbed are 100.625 exactly and
    100.62499999999999 in binary64.  The theorems are therefore stated so
    that this difference does not decide them: they state orderings,
    lower bounds, equalities between two calls, counts of increments,
    and amounts up to the cent the rounding picks (within one cent of the
    exact formula, and equal to it where the formula gives whole cents);
    where a magnitude matters, the range is a hypothesis.  No theorem
    states which cent is picked at a tie, and none speaks of overflow.

    External collaborators (the Nominatim and OSRM web services, the
    PostGIS database, the validation library's [trim] and the runtime's
    number printing) are parameters of the embedding.

    Layout: the embedding of the source, module by module; the
    specification's formulas in the terms of the model ([Spec]); test
    doubles for the collaborators ([Doubles]); then the lemmas and, claim
    by claim, the theorems. *)

From Stdlib Require Import QArith Qround Qreduction Qabs Qminmax Lqa ZArith Lia.
From Stdlib Require Import String Ascii DecimalString List Bool.
Import ListNotations.

Local Open Scope Q_scope.

(* ================================================================== *)
(** * A fragment of JavaScript *)
(* ================================================================== *)

Module JS.

(** ** Numbers *)

Inductive number : Type :=
| NaN
| Num (q : Q).

(** Binary arithmetic: [NaN] is absorbing, results are kept in lowest
    terms so that two computed numbers are equal iff they are [=]. *)
Definition arith (op : Q -> Q -> Q) (a b : number) : number :=
  match a, b with
  | Num x, Num y => Num (Qred (op x y))
  | _, _ => NaN
  end.

Definition add : number -> number -> number := arith Qplus.
Definition sub : number -> number -> number := arith Qminus.
Definition mul : number -> number -> number := arith Qmult.

(** [a / b].  A zero divisor would give an infinity in JavaScript, which
    this model does not have; every divisor in the source is a non-zero
    literal. *)
Definition div (a b : number) : number :=
  match a, b with
  | Num x, Num y => if Qeq_bool y 0 then NaN else Num (Qred (x / y))
  | _, _ => NaN
  end.

(** Comparisons: any comparison with [NaN] is false. *)
Definition le (a b : number) : bool :=
  match a, b with
  | Num x, Num y => Qle_bool x y
  | _, _ => false
  end.

Definition ge (a b : number) : bool := le b a.

Definition gt (a b : number) : bool :=
  match a, b with
  | Num x, Num y => negb (Qle_bool x y)
  | _, _ => false
  end.

(** Truthiness of a number: [NaN] and zero are falsy. *)
Definition truthy (a : number) : bool :=
  match a with
  | NaN => false
  | Num x => negb (Qeq_bool x 0)
  end.

(** [a || b] on numbers. *)
Definition or_else (a b : number) : number :=
  if truthy a then a else b.

(** [parseFloat(x.toFixed(2))]: [toFixed] takes the sign off, picks the
    integer [n] with [n / 100] closest to [|x|] (the larger one on a
    tie) and prints sign, [n / 100]; [parseFloat] reads it back. *)
Definition toFixed2 (a : number) : number :=
  match a with
  | NaN => NaN
  | Num x =>
      if Qle_bool 0 x
      then Num (Qred (inject_Z (Qfloor (x * 100 + (1 # 2))) / 100))
      else Num (Qred (- (inject_Z (Qfloor (- x * 100 + (1 # 2))) / 100)))
  end.

(** ** Property reads on object literals

    An object literal is the list of its own properties.  Reading a name
    it does not own falls through to [Object.prototype], whose members
    are functions (and, for [__proto__], the prototype object itself). *)

Definition object (A : Type) : Type := list (string * A).

Inductive property (A : Type) : Type :=
| Undefined
| Inherited
| Own (a : A).
Arguments Undefined {A}.
Arguments Inherited {A}.
Arguments Own {A} a.

Definition Object_prototype : list string :=
  [ "constructor"; "__defineGetter__"; "__defineSetter__"; "hasOwnProperty";
    "__lookupGetter__"; "__lookupSetter__"; "isPrototypeOf";
    "propertyIsEnumerable"; "toString"; "valueOf"; "__proto__";
    "toLocaleString" ]%string.

Definition inherited (key : string) : bool :=
  existsb (String.eqb key) Object_prototype.

Fixpoint own {A : Type} (o : object A) (key : string) : option A :=
  match o with
  | [] => None
  | (k, v) :: o' => if String.eqb key k then Some v else own o' key
  end.

(** [o[key]] *)
Definition get {A : Type} (o : object A) (key : string) : property A :=
  match own o key with
  | Some v => Own v
  | None => if inherited key then Inherited else Undefined
  end.

(** [ToNumber] of what a read of a numeric table gives: a function or an
    object converts to [NaN], and so does [undefined]. *)
Definition ToNumber (p : property number) : number :=
  match p with
  | Own n => n
  | Inherited | Undefined => NaN
  end.

(** [p || d] where [p] was read from a numeric table: functions and
    objects are truthy. *)
Definition or_default (p : property number) (d : number) : property number :=
  match p with
  | Own n => if truthy n then Own n else Own d
  | Inherited => Inherited
  | Undefined => Own d
  end.

(** ** Completions: a call returns a value or throws an [Error] *)

Record HttpResponse : Type := {
  status : number;
  statusText : string
}.

(** An error object: its [message], and the [response] field axios sets
    on errors that carry an HTTP reply. *)
Record Error : Type := {
  message : string;
  response : option HttpResponse
}.

(** [new Error(msg)] *)
Definition new_Error (msg : string) : Error :=
  {| message := msg; response := None |}.

Inductive completion (A : Type) : Type :=
| Return (a : A)
| Throw (e : Error).
Arguments Return {A} a.
Arguments Throw {A} e.

Definition bind {A B : Type} (c : completion A) (k : A -> completion B)
  : completion B :=
  match c with
  | Return a => k a
  | Throw e => Throw e
  end.

(** [try { c } catch (error) { handler }] *)
Definition try_catch {A : Type} (c : completion A)
           (handler : Error -> completion A) : completion A :=
  match c with
  | Return a => Return a
  | Throw e => handler e
  end.

(** ** Strings

    A [string] stands for the sequence of the characters of a JavaScript
    string, one [ascii] for each; characters beyond the 256 of [ascii]
    are not represented. *)

(** [s.includes(sub)] *)
Fixpoint includes (sub s : string) : bool :=
  if String.prefix sub s then true
  else match s with
       | EmptyString => false
       | String _ s' => includes sub s'
       end.

(** [parts.join(sep)] *)
Fixpoint join (sep : string) (parts : list string) : string :=
  match parts with
  | [] => EmptyString
  | [p] => p
  | p :: ps => (p ++ sep ++ join sep ps)%string
  end.

(** Truthiness of an optional string field: [undefined], [null] and the
    empty string are falsy. *)
Definition present (field : option string) : bool :=
  match field with
  | Some s => negb (String.eqb s EmptyString)
  | None => false
  end.

(** The string held by a field that is [present]. *)
Definition the (field : option string) : string :=
  match field with
  | Some s => s
  | None => EmptyString
  end.

(** [parts.push(s)] *)
Definition push (parts : list string) (s : string) : list string :=
  parts ++ [s].

End JS.

Module Math.

Import JS.

(** [Math.ceil] *)
Definition ceil (a : number) : number :=
  match a with
  | NaN => NaN
  | Num x => Num (inject_Z (Qceiling x))
  end.

(** [Math.round]: the nearest integer, a tie going up. *)
Definition round (a : number) : number :=
  match a with
  | NaN => NaN
  | Num x => Num (inject_Z (Qfloor (x + (1 # 2))))
  end.

(** [Math.max] of two arguments: [NaN] if either is. *)
Definition max (a b : number) : number :=
  match a, b with
  | Num x, Num y => if Qle_bool x y then Num y else Num x
  | _, _ => NaN
  end.

End Math.

Notation "x >>= f" := (JS.bind x f) (at level 50, left associativity).

(* ================================================================== *)
(** * Pricing engine: quoteCalculator.js, [calculateQuoteAmount] *)
(* ================================================================== *)

Module Pricing.

Import JS.

(** The two environment variables the function reads, as [parseFloat]
    returns them: [NaN] when the variable is unset or is not a number. *)
Record Env : Type := {
  BASE_RATE_PER_MILE : number;
  MINIMUM_QUOTE : number
}.

(** No variable set. *)
Definition default_env : Env :=
  {| BASE_RATE_PER_MILE := NaN; MINIMUM_QUOTE := NaN |}.

Definition equipmentMultipliers : object number :=
  [ ("dry_van", Num 1.0);
    ("reefer", Num 1.2);
    ("flatbed", Num 1.15);
    ("step_deck", Num 1.20);
    ("hotshot", Num 0.85);
    ("straight_truck", Num 0.95) ]%string.

Definition WEIGHT_THRESHOLD : number := Num 10000.
Definition WEIGHT_FACTOR_RATE : number := Num 0.10.

(** [parseFloat(process.env.BASE_RATE_PER_MILE) || 2.00] *)
Definition baseRatePerMile (env : Env) : number :=
  or_else (BASE_RATE_PER_MILE env) (Num 2.00).

(** [parseFloat(process.env.MINIMUM_QUOTE) || 100.00] *)
Definition minimumQuote (env : Env) : number :=
  or_else (MINIMUM_QUOTE env) (Num 100.00).

(** [equipmentMultipliers[equipmentType] || 1.0] *)
Definition multiplier (equipmentType : string) : property number :=
  or_default (get equipmentMultipliers equipmentType) (Num 1.0).

(** The running [quoteAmount] after the base rate and the equipment
    multiplier. *)
Definition quoteAfterEquipment (env : Env) (distanceMiles : number)
           (equipmentType : string) : number :=
  let quoteAmount := mul distanceMiles (baseRatePerMile env) in
  mul quoteAmount (ToNumber (multiplier equipmentType)).

(** The local [weightFactor] of the weight branch. *)
Definition weightFactor (totalWeight : number) : number :=
  let weightOverThreshold := sub totalWeight WEIGHT_THRESHOLD in
  mul (Math.ceil (div weightOverThreshold (Num 100))) WEIGHT_FACTOR_RATE.

(** The running [quoteAmount] after the weight branch. *)
Definition quoteWithWeight (quoteAmount totalWeight : number) : number :=
  if gt totalWeight WEIGHT_THRESHOLD
  then add quoteAmount (weightFactor totalWeight)
  else quoteAmount.

(** [calculateQuoteAmount(distanceMiles, equipmentType, totalWeight = 0)];
    an omitted third argument is [None].  The body has no [throw]. *)
Definition calculateQuoteAmount (env : Env) (distanceMiles : number)
           (equipmentType : string) (totalWeight : option number)
  : completion number :=
  let totalWeight := match totalWeight with Some w => w | None => Num 0 end in
  let quoteAmount := quoteAfterEquipment env distanceMiles equipmentType in
  let quoteAmount := quoteWithWeight quoteAmount totalWeight in
  let quoteAmount := Math.max quoteAmount (minimumQuote env) in
  Return (div (Math.round (mul quoteAmount (Num 100))) (Num 100)).

(** The six equipment types of the API ([equipment_type] of the request
    type, the validator's [isIn] list and the schema's CHECK). *)
Inductive EquipmentType : Type :=
| dry_van | reefer | flatbed | step_deck | hotshot | straight_truck.

Definition equipment_type (e : EquipmentType) : string :=
  match e with
  | dry_van => "dry_van"
  | reefer => "reefer"
  | flatbed => "flatbed"
  | step_deck => "step_deck"
  | hotshot => "hotshot"
  | straight_truck => "straight_truck"
  end%string.

End Pricing.

(* ================================================================== *)
(** * Regular expressions, as far as the validation rules use them *)
(* ================================================================== *)

Module RegExp.

(** A pattern made of character classes, sequences and [( ... )?]. *)
Inductive pattern : Type :=
| Class (p : ascii -> bool)
| Seq (r1 r2 : pattern)
| Optional (r : pattern)
| Empty.

(** [r{n}] *)
Fixpoint times (n : nat) (r : pattern) : pattern :=
  match n with
  | O => Empty
  | S n' => Seq r (times n' r)
  end.

(** Matching [r] at the start of [s], the rest of the match being [k]. *)
Fixpoint run (r : pattern) (s : string) (k : string -> bool) : bool :=
  match r with
  | Class p =>
      match s with
      | String c s' => p c && k s'
      | EmptyString => false
      end
  | Seq r1 r2 => run r1 s (fun s' => run r2 s' k)
  | Optional r' => run r' s k || k s
  | Empty => k s
  end.

(** [/^r$/.test(s)] *)
Definition test (r : pattern) (s : string) : bool :=
  run r s (fun rest => String.eqb rest EmptyString).

(** [\d] *)
Definition digit (c : ascii) : bool :=
  (48 <=? nat_of_ascii c)%nat && (nat_of_ascii c <=? 57)%nat.

(** [[A-Za-z]]; the [i] flag adds no character to it *)
Definition letter (c : ascii) : bool :=
  ((65 <=? nat_of_ascii c)%nat && (nat_of_ascii c <=? 90)%nat)
  || ((97 <=? nat_of_ascii c)%nat && (nat_of_ascii c <=? 122)%nat).

(** A literal character *)
Definition lit (a : ascii) (c : ascii) : bool := Ascii.eqb c a.

End RegExp.

(* ================================================================== *)
(** * Request validation: the [equipment_type] rule of [validateQuote] *)
(* ================================================================== *)

Module Validation.

Local Open Scope string_scope.

Section EquipmentType.

(** The sanitizer [trim()] of the validation library. *)
Variable trim : string -> string.

(** [notEmpty()] *)
Definition notEmpty (value : string) : bool := negb (String.eqb value "").

(** [isIn(values)] *)
Definition isIn (values : list string) (value : string) : bool :=
  existsb (String.eqb value) values.

(** [body('equipment_type').trim().notEmpty().isIn([...])]: the sanitized
    value the handler reads from the request, and whether the request
    passes on to [createQuote] as far as this rule goes. *)
Definition equipment_type_rule (value : string) : string * bool :=
  let value := trim value in
  (value,
   notEmpty value
   && isIn [ "dry_van"; "reefer"; "flatbed"; "step_deck"; "hotshot";
             "straight_truck" ] value).

End EquipmentType.

Section Locations.

(** The sanitizer [trim()] of the validation library. *)
Variable trim : string -> string.

(** [isLength({ min, max })]: the library counts characters, as
    [String.length] does on the model's strings. *)
Definition isLength (min : nat) (max : nat) (value : string) : bool :=
  (min <=? String.length value)%nat && (String.length value <=? max)%nat.

(** [/^\d{5}(-\d{4})?$/] *)
Definition usZipRegex : RegExp.pattern :=
  RegExp.Seq (RegExp.times 5 (RegExp.Class RegExp.digit))
             (RegExp.Optional
                (RegExp.Seq (RegExp.Class (RegExp.lit "-"))
                            (RegExp.times 4 (RegExp.Class RegExp.digit)))).

(** [/^[A-Za-z]\d[A-Za-z] \d[A-Za-z]\d$/i] *)
Definition caPostalRegex : RegExp.pattern :=
  RegExp.Seq (RegExp.Class RegExp.letter)
    (RegExp.Seq (RegExp.Class RegExp.digit)
      (RegExp.Seq (RegExp.Class RegExp.letter)
        (RegExp.Seq (RegExp.Class (RegExp.lit " "))
          (RegExp.Seq (RegExp.Class RegExp.digit)
            (RegExp.Seq (RegExp.Class RegExp.letter)
                        (RegExp.Class RegExp.digit)))))).

(** [/^\d{5}$/] *)
Definition mxPostalRegex : RegExp.pattern :=
  RegExp.times 5 (RegExp.Class RegExp.digit).

(** The function given to [.custom(...)] in both postal code rules: it
    returns [true] or throws. *)
Definition postal_code_custom (value : string) : JS.completion bool :=
  if negb (JS.present (Some value)) then JS.Return true
  else if RegExp.test usZipRegex value
          || RegExp.test caPostalRegex value
          || RegExp.test mxPostalRegex value
       then JS.Return true
       else JS.Throw (JS.new_Error
         "Invalid postal code format. Use US ZIP, Canadian postal code, or Mexican CP format").

(** The message a validator of a chain leaves when it fails. *)
Definition check (ok : bool) (msg : string) : list string :=
  if ok then [] else [msg].

(** The message [.custom(f)] leaves: the one of the error [f] throws, or
    the default one when [f] returns something falsy. *)
Definition check_custom (result : JS.completion bool) : list string :=
  match result with
  | JS.Return ok => check ok "Invalid value"
  | JS.Throw error => [JS.message error]
  end.

(** [body(side.city).trim().notEmpty().isLength({ min: 2, max: 100 })]:
    the sanitized city and the messages of the failed validators;
    [side] is ["Origin"] or ["Destination"]. *)
Definition city_rule (side : string) (value : option string) : string * list string :=
  let value := trim (JS.the value) in
  (value,
   check (notEmpty value) (side ++ " city is required")
   ++ check (isLength 2 100 value)
            (side ++ " city must be between 2 and 100 characters"))%list.

(** [body(side.postal_code).optional().trim().isLength({ max: 20 }).custom(...)]:
    an absent field is left alone. *)
Definition postal_code_rule (value : option string) : option string * list string :=
  match value with
  | None => (None, [])
  | Some v =>
      let v := trim v in
      (Some v,
       check (isLength 0 20 v) "Postal code must be 20 characters or less"
       ++ check_custom (postal_code_custom v))%list
  end.

(** [body(side.state_province).optional().trim().isLength({ max: 50 })] *)
Definition state_province_rule (value : option string) : option string * list string :=
  match value with
  | None => (None, [])
  | Some v =>
      let v := trim v in
      (Some v, check (isLength 0 50 v) "State/province must be 50 characters or less")
  end.

(** [body(side.country).trim().notEmpty().isIn(['US', 'CA', 'MX'])] *)
Definition country_rule (side : string) (value : option string) : string * list string :=
  let value := trim (JS.the value) in
  (value,
   check (notEmpty value) (side ++ " country is required")
   ++ check (isIn [ "US"; "CA"; "MX" ] value)
            (side ++ " country must be US, CA, or MX"))%list.

End Locations.

End Validation.

(* ================================================================== *)
(** * Location resolver: geocoding.js *)
(* ================================================================== *)

Module Nominatim.

(** One entry of the provider's JSON reply; [lat] and [lon] are what
    [parseFloat(result.lat)] and [parseFloat(result.lon)] give. *)
Record Place : Type := {
  lat : JS.number;
  lon : JS.number;
  display_name : string
}.

End Nominatim.

Module Geocoding.

Import JS.
Local Open Scope string_scope.

(** The [location] argument; a field that is [undefined] or [null] is
    [None]. *)
Record Location : Type := {
  city : option string;
  postal_code : option string;
  state_province : option string;
  country : option string
}.

(** The object [geocodeLocation] resolves to. *)
Record Geocode : Type := {
  latitude : number;
  longitude : number;
  accuracy : string;
  display_name : string
}.

Definition countryNames : object string :=
  [ ("US", "United States"); ("CA", "Canada"); ("MX", "Mexico") ].

(** [validateNorthAmericaBounds(lat, lon)] *)
Definition validateNorthAmericaBounds (lat lon : number) : bool :=
  let minLat := Num 7.0 in
  let maxLat := Num 83.0 in
  let minLon := Num (-180.0) in
  let maxLon := Num (-50.0) in
  ge lat minLat && le lat maxLat && ge lon minLon && le lon maxLon.

Section Resolver.

(** How the runtime prints a number inside a template literal. *)
Variable Number_toString : number -> string.

(** The text [join] prints for the member of [Object.prototype] with
    the given name. *)
Variable prototype_member_text : string -> string.

(** [axios.get(NOMINATIM_BASE_URL, { params: { q, ... } })]: the call
    throws, or returns [response.data] ([None] when it is falsy). *)
Variable nominatim : string -> completion (option (list Nominatim.Place)).

(** [countryNames[country] || country], as [join] prints it *)
Definition countryName (country : string) : string :=
  match get countryNames country with
  | Own name => if String.eqb name "" then country else name
  | Inherited => prototype_member_text country
  | Undefined => country
  end.

(** [buildGeocodingQuery(city, stateProvince, postalCode, country)] *)
Definition buildGeocodingQuery (city stateProvince postalCode country : option string)
  : string :=
  let parts := [] in
  let parts := if present postalCode then push parts (the postalCode) else parts in
  let parts := if present city then push parts (the city) else parts in
  let parts := if present stateProvince then push parts (the stateProvince) else parts in
  let parts := if present country then push parts (countryName (the country)) else parts in
  join ", " parts.

(** The error thrown for coordinates outside the bounding box. *)
Definition outside_bounds_Error (latitude longitude : number) : Error :=
  new_Error ("Location is outside North America bounds. "
             ++ ("Only US, Canada, and Mexico are supported. "
             ++ ("Coordinates: " ++ Number_toString latitude
             ++ ", " ++ Number_toString longitude))).

(** The request part of [geocodeLocation]: the query with the postal
    code first and, if that call throws, the query without it. *)
Definition request (location : Location) : completion (option (list Nominatim.Place)) :=
  let query := buildGeocodingQuery (city location) (state_province location)
                                   (postal_code location) (country location) in
  if present (postal_code location) then
    try_catch (nominatim query)
      (fun error =>
         let fallbackQuery :=
           buildGeocodingQuery (city location) (state_province location)
                               None (country location) in
         nominatim fallbackQuery)
  else
    nominatim query.

(** [geocodeLocation(location)] *)
Definition geocodeLocation (location : Location) : completion Geocode :=
  if negb (present (city location)) || negb (present (country location)) then
    Throw (new_Error "City and country are required for geocoding")
  else
    let query := buildGeocodingQuery (city location) (state_province location)
                                     (postal_code location) (country location) in
    try_catch
      (request location >>= fun data =>
       match data with
       | None | Some [] =>
           Throw (new_Error ("Could not geocode location: " ++ query))
       | Some (result :: _) =>
           let latitude := Nominatim.lat result in
           let longitude := Nominatim.lon result in
           if negb (validateNorthAmericaBounds latitude longitude) then
             Throw (outside_bounds_Error latitude longitude)
           else
             let accuracy :=
               if present (postal_code location) then "postal_code"
               else if present (state_province location) then "city_state"
               else "city_only" in
             Return {| latitude := latitude;
                       longitude := longitude;
                       accuracy := accuracy;
                       display_name := Nominatim.display_name result |}
       end)
      (fun error =>
         match response error with
         | Some r =>
             Throw (new_Error ("Geocoding API error: " ++ Number_toString (status r)
                               ++ " - " ++ statusText r))
         | None =>
             if includes "North America" (message error) then Throw error
             else Throw (new_Error ("Geocoding failed: " ++ message error))
         end).

End Resolver.

End Geocoding.

(* ================================================================== *)
(** * Distance resolver: quoteCalculator.js

    The revision with the driving-route path; the [calculateDistance] of
    the earlier revision is the body of [calculateGreatCircleDistance]. *)
(* ================================================================== *)

Module OSRM.

(** [response.data] of the routing service, as far as it is read. *)
Record Route : Type := { distance : JS.number }.
Record Data : Type := { routes : option (list Route) }.

End OSRM.

Module Distance.

Import JS.
Local Open Scope string_scope.

(** [parseFloat] of a column of a result row: the driver hands float8
    columns over as numbers, which [parseFloat] gives back unchanged; a
    missing column is [NaN]. *)
Definition parseFloat (column : property number) : number := ToNumber column.

Section Resolver.

Variable Number_toString : number -> string.

(** [axios.get(OSRM_BASE_URL, { ..., timeout: 5000 })]: throws (HTTP
    error, timeout, network error) or returns [response.data]. *)
Variable osrm : string -> completion (option OSRM.Data).

(** PostGIS [ST_Distance] of the geography points [(x1, y1)], [(x2, y2)]
    in metres; [Throw] when the statement cannot be run. *)
Variable ST_Distance : number -> number -> number -> number -> completion number.

(** The SELECT [calculateGreatCircleDistance] sends, with its parameters
    [$1 .. $4]: one row of two columns, kilometres and, from the same
    kilometres, miles. *)
Definition query_distance (p1 p2 p3 p4 : number) : completion (list (object number)) :=
  ST_Distance p1 p2 p3 p4 >>= fun metres =>
  Return [ [ ("distance_km", div metres (Num 1000.0));
             ("distance_miles", mul (div metres (Num 1000.0)) (Num 0.621371)) ] ].

(** The local [OSRM_BASE_URL] of [calculateDrivingDistance] *)
Definition OSRM_BASE_URL (originLat originLon destLat destLon : number) : string :=
  let coordinates :=
    Number_toString originLon ++ "," ++ Number_toString originLat ++ ";"
    ++ Number_toString destLon ++ "," ++ Number_toString destLat in
  "https://router.project-osrm.org/route/v1/driving/" ++ coordinates.

(** [calculateDrivingDistance(originLat, originLon, destLat, destLon)] *)
Definition calculateDrivingDistance (originLat originLon destLat destLon : number)
  : completion (object number) :=
  try_catch
    (osrm (OSRM_BASE_URL originLat originLon destLat destLon) >>= fun data =>
     match data with
     | Some {| OSRM.routes := Some (route :: _) |} =>
         let distanceMeters := OSRM.distance route in
         let distanceKm := div distanceMeters (Num 1000.0) in
         let distanceMiles := mul distanceKm (Num 0.621371) in
         Return [ ("distance_km", toFixed2 distanceKm);
                  ("distance_miles", toFixed2 distanceMiles) ]
     | _ => Throw (new_Error "No route found in API response")
     end)
    (fun error => Throw error).

(** [calculateGreatCircleDistance(originLat, originLon, destLat, destLon)] *)
Definition calculateGreatCircleDistance (originLat originLon destLat destLon : number)
  : completion (object number) :=
  try_catch
    (query_distance originLon originLat destLon destLat >>= fun rows =>
     match rows with
     | [] => Throw (new_Error "Distance calculation failed")
     | row :: _ =>
         Return [ ("distance_km", parseFloat (get row "distance_km"));
                  ("distance_miles", parseFloat (get row "distance_miles")) ]
     end)
    (fun error =>
       Throw (new_Error ("Failed to calculate distance: " ++ message error))).

(** [calculateDistance(originLat, originLon, destLat, destLon)] *)
Definition calculateDistance (originLat originLon destLat destLon : number)
  : completion (object number) :=
  try_catch
    (calculateDrivingDistance originLat originLon destLat destLon)
    (fun error =>
       calculateGreatCircleDistance originLat originLon destLat destLon).

End Resolver.

End Distance.

(* ================================================================== *)
(** * Request handlers: quoteController.js, behind [validateQuote]

    [router.post('/', validateQuote, createQuote)] and
    [router.get('/', getAllQuotes)] of quoteRoutes.js. *)
(* ================================================================== *)

Module Controller.

Import JS.
Local Open Scope string_scope.

(** The body of a POST request, as far as [createQuote] reads it. *)
Record QuoteRequest : Type := {
  origin : Geocoding.Location;
  destination : Geocoding.Location;
  equipment_type : string;
  total_weight : option number;
  pickup_date : option string
}.

(** The sixteen values [$1 .. $16] of the INSERT. *)
Record InsertValues : Type := {
  origin_city : option string;
  origin_postal_code : option string;
  origin_state_province : option string;
  origin_country : option string;
  origin_coordinates : string;
  destination_city : option string;
  destination_postal_code : option string;
  destination_state_province : option string;
  destination_country : option string;
  destination_coordinates : string;
  quote_equipment_type : string;
  quote_total_weight : option number;
  quote_pickup_date : option string;
  distance_miles : property number;
  distance_kilometers : property number;
  quote_amount : number
}.

(** [{ latitude, longitude }] *)
Record Coordinates : Type := {
  latitude : number;
  longitude : number
}.

(** The [pagination] object of the list reply. *)
Record Pagination : Type := {
  page : number;
  limit : number;
  total : number;
  totalPages : number
}.

(** What a handler does with the request: [res.status(s).json(body)]
    ([res.json] is status 200), or [next(error)]. *)
Inductive Body (Row : Type) : Type :=
| ErrorBody (error : string) (message : string)
| QuoteBody (message : string) (data : Row)
            (origin_coordinates destination_coordinates : Coordinates)
            (geocoding_accuracy : string * string)
| ListBody (data : list (Row * option Coordinates * option Coordinates))
           (pagination : Pagination).
Arguments ErrorBody {Row} error message.
Arguments QuoteBody {Row} message data origin_coordinates destination_coordinates
          geocoding_accuracy.
Arguments ListBody {Row} data pagination.

Inductive Response (Row : Type) : Type :=
| Json (status : nat) (body : Body Row)
| Next (error : Error).
Arguments Json {Row} status body.
Arguments Next {Row} error.

(** [field || null] *)
Definition or_null (field : option string) : option string :=
  if present field then field else None.

Section Validated.

Variable trim : string -> string.

(** The four location rules of [validateQuote] for one side, in the
    order of the array: the sanitized location and the messages. *)
Definition validateLocation (side : string) (location : Geocoding.Location)
  : Geocoding.Location * list string :=
  let (city, city_errors) :=
    Validation.city_rule trim side (Geocoding.city location) in
  let (postal_code, postal_code_errors) :=
    Validation.postal_code_rule trim (Geocoding.postal_code location) in
  let (state_province, state_province_errors) :=
    Validation.state_province_rule trim (Geocoding.state_province location) in
  let (country, country_errors) :=
    Validation.country_rule trim side (Geocoding.country location) in
  ({| Geocoding.city := Some city;
      Geocoding.postal_code := postal_code;
      Geocoding.state_province := state_province;
      Geocoding.country := Some country |},
   city_errors ++ postal_code_errors ++ state_province_errors ++ country_errors)%list.

End Validated.

Section Handlers.

Variable env : Pricing.Env.
Variable Number_toString : number -> string.
Variable prototype_member_text : string -> string.
Variable nominatim : string -> completion (option (list Nominatim.Place)).
Variable osrm : string -> completion (option OSRM.Data).
Variable ST_Distance : number -> number -> number -> number -> completion number.

(** A row of the [quotes] table as the database returns it, and the read
    of one of its numeric columns. *)
Variable Row : Type.
Variable column : Row -> string -> property number.

(** The INSERT ... RETURNING of [createQuote]: the new row, or the
    error of the database. *)
Variable insert_quote : InsertValues -> completion Row.

(** The count of the rows of [quotes], read with [parseInt]. *)
Variable count_quotes : completion number.

(** The SELECT ... LIMIT $1 OFFSET $2 of [getAllQuotes]. *)
Variable select_quotes : number -> number -> completion (list Row).

(** [coordinatesToPostGIS(latitude, longitude)] of geocoding.js *)
Definition coordinatesToPostGIS (latitude longitude : number) : string :=
  "POINT(" ++ Number_toString longitude ++ " " ++ Number_toString latitude ++ ")".

(** [createQuote(req, res, next)] on [req.body] *)
Definition createQuote (body : QuoteRequest) : Response Row :=
  match Geocoding.geocodeLocation Number_toString prototype_member_text nominatim
                                  (origin body) with
  | Throw error =>
      Json 400 (ErrorBody "Geocoding error"
                          ("Failed to geocode origin location: " ++ message error))
  | Return originCoords =>
  match Geocoding.geocodeLocation Number_toString prototype_member_text nominatim
                                  (destination body) with
  | Throw error =>
      Json 400 (ErrorBody "Geocoding error"
                          ("Failed to geocode destination location: " ++ message error))
  | Return destCoords =>
  match Distance.calculateDistance Number_toString osrm ST_Distance
          (Geocoding.latitude originCoords) (Geocoding.longitude originCoords)
          (Geocoding.latitude destCoords) (Geocoding.longitude destCoords) with
  | Throw error =>
      Json 500 (ErrorBody "Distance calculation error" (message error))
  | Return distance =>
      let rest :=
        Pricing.calculateQuoteAmount env (ToNumber (get distance "distance_miles"))
                                     (equipment_type body) (total_weight body)
        >>= fun quoteAmount =>
        let originPostGIS :=
          coordinatesToPostGIS (Geocoding.latitude originCoords)
                               (Geocoding.longitude originCoords) in
        let destPostGIS :=
          coordinatesToPostGIS (Geocoding.latitude destCoords)
                               (Geocoding.longitude destCoords) in
        insert_quote
          {| origin_city := Geocoding.city (origin body);
             origin_postal_code := or_null (Geocoding.postal_code (origin body));
             origin_state_province := or_null (Geocoding.state_province (origin body));
             origin_country := Geocoding.country (origin body);
             origin_coordinates := originPostGIS;
             destination_city := Geocoding.city (destination body);
             destination_postal_code :=
               or_null (Geocoding.postal_code (destination body));
             destination_state_province :=
               or_null (Geocoding.state_province (destination body));
             destination_country := Geocoding.country (destination body);
             destination_coordinates := destPostGIS;
             quote_equipment_type := equipment_type body;
             quote_total_weight := total_weight body;
             quote_pickup_date := pickup_date body;
             distance_miles := get distance "distance_miles";
             distance_kilometers := get distance "distance_km";
             quote_amount := quoteAmount |}
        >>= fun quote =>
        Return
          (Json 201
             (QuoteBody "Quote created successfully" quote
                {| latitude := Distance.parseFloat (column quote "origin_latitude");
                   longitude := Distance.parseFloat (column quote "origin_longitude") |}
                {| latitude := Distance.parseFloat (column quote "destination_latitude");
                   longitude :=
                     Distance.parseFloat (column quote "destination_longitude") |}
                (Geocoding.accuracy originCoords, Geocoding.accuracy destCoords))) in
      match rest with
      | Return response => response
      | Throw error => Next error
      end
  end end end.

(** [quote.origin_latitude ? { latitude, longitude } : null] *)
Definition coordinates_of (quote : Row) (latitude_column longitude_column : string)
  : option Coordinates :=
  let shown :=
    match column quote latitude_column with
    | Own n => truthy n
    | Inherited => true
    | Undefined => false
    end in
  if shown
  then Some {| latitude := Distance.parseFloat (column quote latitude_column);
               longitude := Distance.parseFloat (column quote longitude_column) |}
  else None.

(** [getAllQuotes(req, res, next)] on [parseInt(req.query.page)] and
    [parseInt(req.query.limit)] *)
Definition getAllQuotes (query_page query_limit : number) : Response Row :=
  let page := or_else query_page (Num 1) in
  let limit := or_else query_limit (Num 10) in
  let offset := mul (sub page (Num 1)) limit in
  let rest :=
    count_quotes >>= fun total =>
    select_quotes limit offset >>= fun rows =>
    let quotesWithCoords :=
      map (fun quote =>
             (quote,
              coordinates_of quote "origin_latitude" "origin_longitude",
              coordinates_of quote "destination_latitude" "destination_longitude"))
          rows in
    Return (Json 200
              (ListBody quotesWithCoords
                        {| page := page;
                           limit := limit;
                           total := total;
                           totalPages := Math.ceil (div total limit) |})) in
  match rest with
  | Return response => response
  | Throw error => Next error
  end.

End Handlers.

End Controller.

(* ================================================================== *)
(** * What the specification states, in the terms of the model *)
(* ================================================================== *)

Module Spec.

Import Pricing.

(** The multiplier table of the specification. *)
Definition multiplier (e : EquipmentType) : Q :=
  match e with
  | dry_van => 1.00
  | reefer => 1.20
  | flatbed => 1.15
  | step_deck => 1.20
  | hotshot => 0.85
  | straight_truck => 0.95
  end.

Definition baseRatePerMile : Q := 2.00.
Definition minimumQuote : Q := 100.00.

(** Rounding to 2 decimal places, a half going up. *)
Definition round2 (x : Q) : Q := inject_Z (Qfloor (x * 100 + (1 # 2))) / 100.


(** [ceil((weight - threshold) / 100) * rate] above the threshold, else 0. *)
Definition surcharge (totalWeight : Q) : Q :=
  if Qle_bool totalWeight 10000 then 0
  else inject_Z (Qceiling ((totalWeight - 10000) / 100)) * 0.10.

(** The order on returned amounts: both calls return, both amounts are
    numbers, and the first is at most the second. *)
Definition amount_le (c1 c2 : JS.completion JS.number) : Prop :=
  match c1, c2 with
  | JS.Return (JS.Num a), JS.Return (JS.Num b) => a <= b
  | _, _ => False
  end.

(** The North-America bounding box: latitude in [7, 83], longitude in
    [-180, -50]. *)
Definition in_North_America (latitude longitude : JS.number) : Prop :=
  exists la lo,
    latitude = JS.Num la /\ longitude = JS.Num lo
    /\ 7 <= la <= 83 /\ -180 <= lo <= -50.

(** [miles = kilometers * 0.621371], the product being the one the
    engine's arithmetic computes. *)
Definition miles_from_kilometers (result : JS.object JS.number) : Prop :=
  exists km mi,
    JS.get result "distance_km" = JS.Own km
    /\ JS.get result "distance_miles" = JS.Own mi
    /\ mi = JS.mul km (JS.Num 0.621371).

(** The routing call gives no route: it throws (HTTP error, timeout,
    network error) or its reply holds no route. *)
Definition no_route (reply : JS.completion (option OSRM.Data)) : Prop :=
  match reply with
  | JS.Throw _ => True
  | JS.Return None => True
  | JS.Return (Some data) =>
      match OSRM.routes data with
      | Some (_ :: _) => False
      | _ => True
      end
  end.

End Spec.

(* ================================================================== *)
(** * Test doubles for the external collaborators *)
(* ================================================================== *)

Module Doubles.

Import JS.
Local Open Scope string_scope.

(** A number printer: sign, integer part and up to six decimals.  (The
    runtime prints every digit of a number; the numbers printed below
    have at most four decimals.) *)
Definition digits (n : Z) : string := NilZero.string_of_int (Z.to_int n).

Fixpoint strip_zeros (fuel : nat) (n : Z) (width : nat) : string :=
  match fuel with
  | O => ""
  | S fuel' =>
      if (n =? 0)%Z then ""
      else if (n mod 10 =? 0)%Z then strip_zeros fuel' (n / 10) (pred width)
      else
        (fix pad (k : nat) (s : string) : string :=
           match k with
           | O => s
           | S k' => pad k' ("0" ++ s)
           end) (width - String.length (digits n))%nat (digits n)
  end.

Definition Number_toString (a : number) : string :=
  match a with
  | NaN => "NaN"
  | Num q =>
      let sign := if Qle_bool 0 q then "" else "-" in
      let m := Qabs q in
      let whole := Qfloor m in
      let millionths := Qfloor ((m - inject_Z whole) * 1000000) in
      let decimals := strip_zeros 6 millionths 6 in
      sign ++ digits whole ++ (if String.eqb decimals "" then "" else "." ++ decimals)
  end.

(** A stand-in for the text of an inherited member; the runtime prints a
    text of its own for each member. *)
Definition prototype_member_text (key : string) : string :=
  "function " ++ key ++ "() { [native code] }".

Definition Network_Error : Error :=
  {| message := "Network Error"; response := None |}.

Definition Timeout_Error : Error :=
  {| message := "timeout of 5000ms exceeded"; response := None |}.

(** A geocoding provider that knows two city queries and fails on every
    other query, in particular on every query led by a postal code. *)
Definition nominatim (q : string) : completion (option (list Nominatim.Place)) :=
  if String.eqb q "Toronto, ON, Canada" then
    Return (Some [ {| Nominatim.lat := Num 43.6532;
                      Nominatim.lon := Num (-79.3832);
                      Nominatim.display_name := "Toronto, Ontario, Canada" |} ])
  else if String.eqb q "London, Canada" then
    Return (Some [ {| Nominatim.lat := Num 51.5074;
                      Nominatim.lon := Num (-0.1278);
                      Nominatim.display_name := "London, England, United Kingdom" |} ])
  else Throw Network_Error.

Definition Toronto : Geocoding.Location :=
  {| Geocoding.city := Some "Toronto";
     Geocoding.postal_code := Some "M5H 2N2";
     Geocoding.state_province := Some "ON";
     Geocoding.country := Some "CA" |}.

Definition London : Geocoding.Location :=
  {| Geocoding.city := Some "London";
     Geocoding.postal_code := None;
     Geocoding.state_province := None;
     Geocoding.country := Some "CA" |}.

(** A routing provider that times out. *)
Definition osrm_timeout (url : string) : completion (option OSRM.Data) :=
  Throw Timeout_Error.

(** A routing provider that finds a route of 1000 metres. *)
Definition osrm_1000m (url : string) : completion (option OSRM.Data) :=
  Return (Some {| OSRM.routes := Some [ {| OSRM.distance := Num 1000 |} ] |}).

(** A database whose [ST_Distance] is 3358.2 km for every pair. *)
Definition ST_Distance (x1 y1 x2 y2 : number) : completion number :=
  Return (Num 3358200).

(** A geocoding provider that finds nothing. *)
Definition nominatim_no_match (q : string)
  : completion (option (list Nominatim.Place)) :=
  Return (Some []).

Definition Atlantis : Geocoding.Location :=
  {| Geocoding.city := Some "Atlantis";
     Geocoding.postal_code := None;
     Geocoding.state_province := None;
     Geocoding.country := Some "US" |}.

(** A geocoding provider that knows the postal code queries of two
    cities. *)
Definition nominatim_postal (q : string)
  : completion (option (list Nominatim.Place)) :=
  if String.eqb q "M5H 2N2, Toronto, ON, Canada" then
    Return (Some [ {| Nominatim.lat := Num 43.6532;
                      Nominatim.lon := Num (-79.3832);
                      Nominatim.display_name := "Toronto, Ontario, Canada" |} ])
  else if String.eqb q "V6B 1A1, Vancouver, BC, Canada" then
    Return (Some [ {| Nominatim.lat := Num 49.2827;
                      Nominatim.lon := Num (-123.1216);
                      Nominatim.display_name := "Vancouver, British Columbia, Canada" |} ])
  else Return (Some []).

Definition Vancouver : Geocoding.Location :=
  {| Geocoding.city := Some "Vancouver";
     Geocoding.postal_code := Some "V6B 1A1";
     Geocoding.state_province := Some "BC";
     Geocoding.country := Some "CA" |}.

(** A routing provider that finds a route of 4,500 km. *)
Definition osrm_4500km (url : string) : completion (option OSRM.Data) :=
  Return (Some {| OSRM.routes := Some [ {| OSRM.distance := Num 4500000 |} ] |}).

(** A routing provider whose route carries no distance. *)
Definition osrm_no_distance (url : string) : completion (option OSRM.Data) :=
  Return (Some {| OSRM.routes := Some [ {| OSRM.distance := NaN |} ] |}).

(** A database that is down. *)
Definition Connection_Error : Error :=
  {| message := "connect ECONNREFUSED 127.0.0.1:5432"; response := None |}.

Definition ST_Distance_down (x1 y1 x2 y2 : number) : completion number :=
  Throw Connection_Error.

(** A [quotes] table that hands the inserted values back as the row and
    has no coordinate columns to read. *)
Definition column (row : Controller.InsertValues) (name : string)
  : property number := Undefined.

Definition insert_quote (values : Controller.InsertValues)
  : completion Controller.InsertValues := Return values.

(** The sanitizer of a validation library that finds nothing to trim. *)
Definition trim (value : string) : string := value.

Definition Toronto_Vancouver : Controller.QuoteRequest :=
  {| Controller.origin := Toronto;
     Controller.destination := Vancouver;
     Controller.equipment_type := "dry_van";
     Controller.total_weight := Some (Num 10000);
     Controller.pickup_date := Some "2026-12-01" |}.

(** A [quotes] table of 25 rows whose SELECT is not looked at. *)
Definition count_quotes : completion number := Return (Num 25).

Definition select_quotes (limit offset : number)
  : completion (list Controller.InsertValues) := Return [].

End Doubles.

(* ================================================================== *)
(** * Facts about the number model *)
(* ================================================================== *)

Import JS.

(** [lra] reads [inject_Z z] as a constant and does not divide: name the
    integers and turn the divisions by literals into products first. *)
Ltac name_integers :=
  repeat match goal with
         | |- context [inject_Z ?z] =>
             let q := fresh "q" in set (q := inject_Z z) in *; clearbody q
         | H : context [inject_Z ?z] |- _ =>
             let q := fresh "q" in set (q := inject_Z z) in *; clearbody q
         end.

Ltac literal_divisions :=
  unfold Qdiv in *;
  change (/ 100) with (1 # 100) in *;
  change (/ 1000.0) with (1 # 1000) in *.

Ltac qlra := name_integers; literal_divisions; lra.

Lemma Num_Qred_eq (x y : Q) : x == y -> Num (Qred x) = Num (Qred y).
Proof. intros H. f_equal. now apply Qred_complete. Qed.

Lemma mul_Num (x y : Q) : mul (Num x) (Num y) = Num (Qred (x * y)).
Proof. reflexivity. Qed.

Lemma add_Num (x y : Q) : add (Num x) (Num y) = Num (Qred (x + y)).
Proof. reflexivity. Qed.

Lemma sub_Num (x y : Q) : sub (Num x) (Num y) = Num (Qred (x - y)).
Proof. reflexivity. Qed.

Lemma div_Num_100 (x : Q) : div (Num x) (Num 100) = Num (Qred (x / 100)).
Proof. reflexivity. Qed.

Lemma gt_Num (x y : Q) : gt (Num x) (Num y) = negb (Qle_bool x y).
Proof. reflexivity. Qed.

Lemma Qle_bool_false (x y : Q) : Qle_bool x y = false <-> y < x.
Proof.
  split; intros H.
  - apply Qnot_le_lt. intros Hle. apply Qle_bool_iff in Hle. congruence.
  - destruct (Qle_bool x y) eqn:E; [|reflexivity].
    apply Qle_bool_iff in E. exfalso. apply (Qlt_not_le _ _ H E).
Qed.

Lemma max_Num (x y : Q) : exists z, Math.max (Num x) (Num y) = Num z /\ z == Qmax x y.
Proof.
  unfold Math.max. destruct (Qle_bool x y) eqn:E.
  - exists y. split; [reflexivity|]. apply Qle_bool_iff in E.
    symmetry. now apply Q.max_r.
  - exists x. split; [reflexivity|]. apply Qle_bool_false in E.
    symmetry. apply Q.max_l. now apply Qlt_le_weak.
Qed.

(** The last two statements of [calculateQuoteAmount] applied to a running
    amount [x], with the minimum [m]. *)
Lemma minimum_then_round (x m : Q) :
  div (Math.round (mul (Math.max (Num x) (Num m)) (Num 100))) (Num 100)
  = Num (Qred (Spec.round2 (Qmax x m))).
Proof.
  destruct (max_Num x m) as [z [-> Hz]].
  rewrite mul_Num. unfold Math.round. rewrite div_Num_100.
  apply Num_Qred_eq. unfold Spec.round2.
  rewrite (Qfloor_comp (Qred (z * 100) + (1 # 2)) (Qmax x m * 100 + (1 # 2))).
  - reflexivity.
  - rewrite Qred_correct, Hz. reflexivity.
Qed.

Lemma round2_le (x y : Q) : x <= y -> Spec.round2 x <= Spec.round2 y.
Proof.
  intros H. unfold Spec.round2.
  assert (Hz : (Qfloor (x * 100 + (1 # 2)) <= Qfloor (y * 100 + (1 # 2)))%Z).
  { apply Qfloor_resp_le. lra. }
  rewrite Zle_Qle in Hz. qlra.
Qed.

(** [round2 x] is the multiple of 0.01 nearest to [x]. *)
Lemma round2_nearest (x : Q) :
  Spec.round2 x - (1 # 200) <= x < Spec.round2 x + (1 # 200)
  /\ Spec.round2 x * 100 == inject_Z (Qfloor (x * 100 + (1 # 2))).
Proof.
  unfold Spec.round2.
  pose proof (Qfloor_le (x * 100 + (1 # 2))) as Hl.
  pose proof (Qlt_floor (x * 100 + (1 # 2))) as Hu.
  rewrite inject_Z_plus in Hu. change (inject_Z 1) with 1 in Hu.
  split; [|field]. qlra.
Qed.

Lemma round2_of_cents (n : Z) : Spec.round2 (inject_Z n / 100) == inject_Z n / 100.
Proof.
  unfold Spec.round2.
  rewrite (Qfloor_comp _ (inject_Z n + (1 # 2))) by field.
  assert (H : Qfloor (inject_Z n + (1 # 2)) = n).
  { pose proof (Qfloor_le (inject_Z n + (1 # 2))) as Hl.
    pose proof (Qlt_floor (inject_Z n + (1 # 2))) as Hu.
    rewrite inject_Z_plus in Hu. change (inject_Z 1) with 1 in Hu.
    assert (H1 : inject_Z (Qfloor (inject_Z n + (1 # 2))) < inject_Z (n + 1)).
    { rewrite inject_Z_plus. change (inject_Z 1) with 1. qlra. }
    assert (H2 : (Qfloor (inject_Z n) <= Qfloor (inject_Z n + (1 # 2)))%Z).
    { apply Qfloor_resp_le. qlra. }
    rewrite Qfloor_Z in H2. rewrite <- Zlt_Qlt in H1. lia. }
  rewrite H. reflexivity.
Qed.

Lemma round2_comp (x y : Q) : x == y -> Spec.round2 x == Spec.round2 y.
Proof.
  intros H. unfold Spec.round2.
  rewrite (Qfloor_comp (x * 100 + (1 # 2)) (y * 100 + (1 # 2))); [reflexivity|].
  now rewrite H.
Qed.

Lemma Qmax_comp (x y m : Q) : x == y -> Qmax x m == Qmax y m.
Proof. intros H. now rewrite H. Qed.

Lemma Qmax_le_l (x y m : Q) : x <= y -> Qmax x m <= Qmax y m.
Proof. intros H. apply Q.max_le_compat_r. exact H. Qed.

(* ================================================================== *)
(** * Pricing engine: the steps of [calculateQuoteAmount] *)
(* ================================================================== *)

Import Pricing.

Local Open Scope string_scope.

(** A name that is none of the six types is not a key of the table. *)
Lemma own_unknown (equipmentType : string) :
  (forall e, equipmentType <> equipment_type e) ->
  own equipmentMultipliers equipmentType = None.
Proof.
  intros H. unfold equipmentMultipliers, own.
  destruct (String.eqb_spec equipmentType "dry_van") as [E|_];
    [exfalso; exact (H dry_van E)|].
  destruct (String.eqb_spec equipmentType "reefer") as [E|_];
    [exfalso; exact (H reefer E)|].
  destruct (String.eqb_spec equipmentType "flatbed") as [E|_];
    [exfalso; exact (H flatbed E)|].
  destruct (String.eqb_spec equipmentType "step_deck") as [E|_];
    [exfalso; exact (H step_deck E)|].
  destruct (String.eqb_spec equipmentType "hotshot") as [E|_];
    [exfalso; exact (H hotshot E)|].
  destruct (String.eqb_spec equipmentType "straight_truck") as [E|_];
    [exfalso; exact (H straight_truck E)|].
  reflexivity.
Qed.

(** Each of the six types reads its own multiplier, the one the
    specification lists. *)
Lemma multiplier_known (e : EquipmentType) :
  exists m, multiplier (equipment_type e) = Own (Num m) /\ m == Spec.multiplier e.
Proof.
  destruct e; eexists; (split; [reflexivity|reflexivity]).
Qed.

Lemma mul_NaN_r (a : number) : mul a NaN = NaN.
Proof. now destruct a. Qed.

(** Once the running amount is [NaN] the result is [NaN]. *)
Lemma NaN_propagates (env : Env) (totalWeight : number) :
  div (Math.round (mul (Math.max (quoteWithWeight NaN totalWeight) (minimumQuote env))
                       (Num 100))) (Num 100) = NaN.
Proof.
  unfold quoteWithWeight. now destruct (gt totalWeight WEIGHT_THRESHOLD).
Qed.

(** The configured rate and minimum are always numbers. *)
Lemma or_else_Num (a : number) (d : Q) : exists x, or_else a (Num d) = Num x.
Proof.
  unfold or_else. destruct a as [|q]; simpl.
  - now exists d.
  - destruct (Qeq_bool q 0); [now exists d | now exists q].
Qed.

Lemma weightFactor_Num (w : Q) :
  weightFactor (Num w)
  = Num (Qred (inject_Z (Qceiling ((w - 10000) / 100)) * 0.10)).
Proof.
  unfold weightFactor, WEIGHT_THRESHOLD, WEIGHT_FACTOR_RATE.
  rewrite sub_Num, div_Num_100. unfold Math.ceil. rewrite mul_Num.
  apply Num_Qred_eq.
  rewrite (Qceiling_comp (Qred (Qred (w - 10000) / 100)) ((w - 10000) / 100)).
  - reflexivity.
  - now rewrite !Qred_correct.
Qed.

Lemma quoteWithWeight_light (quoteAmount : number) (w : Q) :
  w <= 10000 -> quoteWithWeight quoteAmount (Num w) = quoteAmount.
Proof.
  intros H. unfold quoteWithWeight, WEIGHT_THRESHOLD. rewrite gt_Num.
  apply Qle_bool_iff in H. now rewrite H.
Qed.

Lemma quoteWithWeight_heavy (x w : Q) :
  10000 < w ->
  quoteWithWeight (Num x) (Num w)
  = Num (Qred (x + Qred (inject_Z (Qceiling ((w - 10000) / 100)) * 0.10))).
Proof.
  intros H. unfold quoteWithWeight, WEIGHT_THRESHOLD. rewrite gt_Num.
  apply Qle_bool_false in H. rewrite H. simpl negb. cbv iota.
  now rewrite weightFactor_Num, add_Num.
Qed.

(** The weight branch adds the specification's surcharge. *)
Lemma quoteWithWeight_surcharge (x w : Q) :
  exists r, quoteWithWeight (Num x) (Num w) = Num r /\ r == x + Spec.surcharge w.
Proof.
  unfold Spec.surcharge. destruct (Qle_bool w 10000) eqn:E.
  - exists x. split.
    + apply quoteWithWeight_light. now apply Qle_bool_iff.
    + ring.
  - eexists. split.
    + apply quoteWithWeight_heavy. now apply Qle_bool_false.
    + now rewrite !Qred_correct.
Qed.

Lemma surcharge_nonneg (w : Q) : 0 <= Spec.surcharge w.
Proof.
  unfold Spec.surcharge. destruct (Qle_bool w 10000) eqn:E; [lra|].
  apply Qle_bool_false in E.
  pose proof (Qle_ceiling ((w - 10000) / 100)) as H.
  assert (H0 : 0 < (w - 10000) / 100) by (literal_divisions; lra).
  qlra.
Qed.

Lemma surcharge_le (w1 w2 : Q) : w1 <= w2 -> Spec.surcharge w1 <= Spec.surcharge w2.
Proof.
  intros H. pose proof (surcharge_nonneg w2) as Hn. revert Hn.
  unfold Spec.surcharge.
  destruct (Qle_bool w1 10000) eqn:E1; destruct (Qle_bool w2 10000) eqn:E2;
    intros Hn; try lra.
  - apply Qle_bool_false in E1. apply Qle_bool_iff in E2. lra.
  - assert (Hc : (Qceiling ((w1 - 10000) / 100) <= Qceiling ((w2 - 10000) / 100))%Z).
    { apply Qceiling_resp_le. literal_divisions. lra. }
    rewrite Zle_Qle in Hc. qlra.
Qed.

(** Whatever the weight argument, a numeric running amount stays numeric
    and is not lowered. *)
Lemma quoteWithWeight_Num (x : Q) (totalWeight : number) :
  exists r, quoteWithWeight (Num x) totalWeight = Num r /\ x <= r.
Proof.
  destruct totalWeight as [|w].
  - exists x. split; [reflexivity|lra].
  - destruct (quoteWithWeight_surcharge x w) as [r [Hr Hs]].
    exists r. split; [exact Hr|]. pose proof (surcharge_nonneg w). lra.
Qed.

(** The amount after the equipment step, for the six types and no
    environment override. *)
Lemma quoteAfterEquipment_default (d : Q) (e : EquipmentType) :
  exists x, quoteAfterEquipment default_env (Num d) (equipment_type e) = Num x
            /\ x == d * Spec.baseRatePerMile * Spec.multiplier e.
Proof.
  destruct (multiplier_known e) as [m [Hm Hs]].
  unfold quoteAfterEquipment. rewrite Hm.
  change (baseRatePerMile default_env) with (Num 2.00).
  unfold ToNumber. rewrite !mul_Num.
  eexists. split; [reflexivity|].
  rewrite !Qred_correct, Hs. reflexivity.
Qed.

(** For the six types the equipment step gives a number under every
    configuration. *)
Lemma quoteAfterEquipment_Num (env : Env) (d : Q) (e : EquipmentType) :
  exists x, quoteAfterEquipment env (Num d) (equipment_type e) = Num x.
Proof.
  destruct (multiplier_known e) as [m [Hm _]].
  destruct (or_else_Num (BASE_RATE_PER_MILE env) 2.00) as [b Hb].
  unfold quoteAfterEquipment, baseRatePerMile. rewrite Hm, Hb.
  eexists. reflexivity.
Qed.

(** Under any configuration whose minimum is a whole number of cents the
    returned amount is at least that minimum. *)
Lemma minimum_quote_whole_cents
      (env : Env) (d : Q) (e : EquipmentType) (totalWeight : option number)
      (m : Q) (cents : Z) :
  minimumQuote env = Num m ->
  m == inject_Z cents / 100 ->
  exists amount,
    calculateQuoteAmount env (Num d) (equipment_type e) totalWeight
    = Return (Num amount)
    /\ m <= amount.
Proof.
  intros Hm Hc.
  destruct (quoteAfterEquipment_Num env d e) as [x Hx].
  destruct (quoteWithWeight_Num
              x (match totalWeight with Some w => w | None => Num 0 end))
    as [r [Hr _]].
  unfold calculateQuoteAmount. rewrite Hx, Hr, Hm, minimum_then_round.
  eexists. split; [reflexivity|].
  rewrite Qred_correct.
  apply Qle_trans with (Spec.round2 m).
  - rewrite (round2_comp m _ Hc), round2_of_cents, Hc. apply Qle_refl.
  - apply round2_le. apply Q.le_max_r.
Qed.

(** A configured minimum with a fraction of a cent is not kept by the
    final rounding. *)
Example minimum_quote_fraction_of_cent :
  calculateQuoteAmount {| BASE_RATE_PER_MILE := NaN; MINIMUM_QUOTE := Num 100.004 |}
                       (Num 1) "dry_van" None
  = Return (Num 100).
Proof. reflexivity. Qed.

(** A request that passes the [equipment_type] rule of [validateQuote]
    carries one of the six types. *)
Lemma validateQuote_admits_six_types (trim : string -> string) (value v : string) :
  Validation.equipment_type_rule trim value = (v, true) ->
  exists e, v = equipment_type e.
Proof.
  unfold Validation.equipment_type_rule, Validation.isIn. intros [= <- H].
  apply andb_true_iff in H. destruct H as [_ H]. simpl in H.
  repeat (apply orb_true_iff in H; destruct H as [H|H];
          [apply String.eqb_eq in H|]).
  - now exists dry_van.
  - now exists reefer.
  - now exists flatbed.
  - now exists step_deck.
  - now exists hotshot.
  - now exists straight_truck.
  - discriminate H.
Qed.

(* ================================================================== *)
(** * Pricing engine: the claims *)
(* ================================================================== *)

(** C1, as stated, fails: for the equipment type ["car"], which is none of
    the six values, [calculateQuoteAmount] does not fail with an error.  It
    returns 200 for 100 miles, the amount the default multiplier 1.0
    gives. *)
Lemma C1_unknown_equipment_is_not_rejected :
  calculateQuoteAmount default_env (Num 100) "car" None = Return (Num 200)
  /\ ~ (exists error, calculateQuoteAmount default_env (Num 100) "car" None
                      = Throw error).
Proof.
  split; [reflexivity|].
  intros [error H]. discriminate H.
Qed.

(** C1, amended: for every configuration, distance and weight, a call of
    [calculateQuoteAmount] with an equipment type outside the six values
    is not rejected: the call returns, it never throws.  The multiplier
    used is the default 1.0 and the amount is the one of ["dry_van"]
    (stated for the names that are not members of [Object.prototype]). *)
Theorem C1_unknown_equipment_defaults
        (env : Env) (distanceMiles : number) (equipmentType : string)
        (totalWeight : option number) :
  (forall e, equipmentType <> equipment_type e) ->
  (exists amount,
      calculateQuoteAmount env distanceMiles equipmentType totalWeight
      = Return amount)
  /\ (inherited equipmentType = false ->
      multiplier equipmentType = Own (Num 1.0)
      /\ calculateQuoteAmount env distanceMiles equipmentType totalWeight
         = calculateQuoteAmount env distanceMiles "dry_van" totalWeight).
Proof.
  intros Hout. pose proof (own_unknown equipmentType Hout) as Hown.
  split; [eexists; reflexivity|].
  intros Hin.
  assert (Hm : multiplier equipmentType = Own (Num 1.0)).
  { unfold multiplier, get. rewrite Hown, Hin. reflexivity. }
  split; [exact Hm|].
  unfold calculateQuoteAmount, quoteAfterEquipment. rewrite Hm. reflexivity.
Qed.

(** The amended C1 at the equipment type ["car"], 100 miles, 12000 lb. *)
Lemma C1_unknown_equipment_defaults_witness :
  (forall e, "car" <> equipment_type e)
  /\ inherited "car" = false
  /\ multiplier "car" = Own (Num 1.0)
  /\ calculateQuoteAmount default_env (Num 100) "car" (Some (Num 12000))
     = calculateQuoteAmount default_env (Num 100) "dry_van" (Some (Num 12000))
  /\ calculateQuoteAmount default_env (Num 100) "car" (Some (Num 12000))
     = Return (Num 202).
Proof.
  assert (H : forall e, "car" <> equipment_type e) by (intros []; discriminate).
  split; [exact H|]. split; [reflexivity|].
  destruct (C1_unknown_equipment_defaults default_env (Num 100) "car"
                                          (Some (Num 12000)) H)
    as [_ Hdefault].
  destruct (Hdefault eq_refl) as [Hm Hsame].
  split; [exact Hm|]. split; [exact Hsame|reflexivity].
Defined.

(** C5: the weight branch of [calculateQuoteAmount], with threshold 10000
    and rate 0.10, adds to the running amount [q] nothing at weight
    10000, one increment 0.10 at 10001 and three increments 0.30 at 10250;
    for every weight it adds [ceil((weight - 10000) / 100) * 0.10] above
    the threshold and nothing otherwise.  On 100 miles of dry van (200.00
    before the weight step) the three weights give 200.00, 200.10 and
    200.30. *)
Theorem C5_weight_surcharge :
  (forall q : Q,
      quoteWithWeight (Num q) (Num 10000) = Num q
      /\ (exists r, quoteWithWeight (Num q) (Num 10001) = Num r /\ r == q + 0.10)
      /\ (exists r, quoteWithWeight (Num q) (Num 10250) = Num r
                    /\ r == q + 3 * 0.10 /\ r == q + 0.30)
      /\ (forall w : Q,
             exists r, quoteWithWeight (Num q) (Num w) = Num r
                       /\ r == q + (if Qle_bool w 10000 then 0
                                    else inject_Z (Qceiling ((w - 10000) / 100))
                                         * 0.10)))
  /\ calculateQuoteAmount default_env (Num 100) "dry_van" (Some (Num 10000))
     = Return (Num 200)
  /\ calculateQuoteAmount default_env (Num 100) "dry_van" (Some (Num 10001))
     = Return (Num (Qred 200.10))
  /\ calculateQuoteAmount default_env (Num 100) "dry_van" (Some (Num 10250))
     = Return (Num (Qred 200.30)).
Proof.
  split; [|repeat split; reflexivity].
  intros q. split; [|split; [|split]].
  - apply quoteWithWeight_light. lra.
  - destruct (quoteWithWeight_surcharge q 10001) as [r [Hr Hs]].
    exists r. split; [exact Hr|]. rewrite Hs. reflexivity.
  - destruct (quoteWithWeight_surcharge q 10250) as [r [Hr Hs]].
    exists r. split; [exact Hr|]. rewrite Hs. split; reflexivity.
  - intros w. apply quoteWithWeight_surcharge.
Qed.

Lemma Qfloor_unique (x : Q) (k : Z) :
  inject_Z k <= x < inject_Z k + 1 -> Qfloor x = k.
Proof.
  intros [Hl Hu].
  pose proof (Qfloor_le x) as H1. pose proof (Qlt_floor x) as H2.
  rewrite inject_Z_plus in H2. change (inject_Z 1) with 1 in H2.
  assert (Ha : inject_Z (Qfloor x) < inject_Z (k + 1)).
  { rewrite inject_Z_plus. change (inject_Z 1) with 1. qlra. }
  assert (Hb : inject_Z (k - 1) < inject_Z (Qfloor x)).
  { unfold Z.sub. rewrite inject_Z_plus, inject_Z_opp.
    change (inject_Z 1) with 1. qlra. }
  rewrite <- Zlt_Qlt in Ha, Hb. lia.
Qed.

(** What the rounding to 2 places leaves of a value [x]: a whole number
    of cents less than a cent away from [x], and the cent [c] itself for
    every [x] that is less than half a cent away from [c]. *)
Lemma round2_cents (x : Q) :
  (exists cents : Z, Spec.round2 x == inject_Z cents / 100)
  /\ x - (1 # 100) < Spec.round2 x < x + (1 # 100)
  /\ (forall cents : Z,
        inject_Z cents / 100 - (1 # 200) <= x < inject_Z cents / 100 + (1 # 200) ->
        Spec.round2 x == inject_Z cents / 100).
Proof.
  split; [eexists; unfold Spec.round2; reflexivity|].
  split.
  - pose proof (round2_nearest x) as [[H1 H2] _]. lra.
  - intros cents H. unfold Spec.round2.
    rewrite (Qfloor_unique (x * 100 + (1 # 2)) cents); [reflexivity|].
    qlra.
Qed.



(** C7: with no environment override, for every distance, each of the six
    equipment types and every weight argument (omitted, [NaN], or any
    number), [calculateQuoteAmount] returns a number that is at least the
    minimum quote 100.00: the minimum is applied after the multiplier and
    the weight step.  In particular one mile of hotshot (1.70 after the
    0.85 multiplier) is quoted 100.00. *)
Theorem C7_minimum_quote_enforced :
  (forall (distanceMiles : Q) (e : EquipmentType) (totalWeight : option number),
      exists amount,
        calculateQuoteAmount default_env (Num distanceMiles) (equipment_type e)
                             totalWeight
        = Return (Num amount)
        /\ 100.00 <= amount)
  /\ quoteAfterEquipment default_env (Num 1) "hotshot" = Num (Qred 1.70)
  /\ calculateQuoteAmount default_env (Num 1) "hotshot" None = Return (Num 100).
Proof.
  split; [|split; reflexivity].
  intros d e totalWeight.
  destruct (quoteAfterEquipment_default d e) as [x [Hx _]].
  destruct (quoteWithWeight_Num
              x (match totalWeight with Some w => w | None => Num 0 end))
    as [r [Hr _]].
  unfold calculateQuoteAmount. rewrite Hx, Hr.
  change (minimumQuote default_env) with (Num 100.00).
  rewrite minimum_then_round.
  eexists. split; [reflexivity|].
  rewrite Qred_correct.
  apply Qle_trans with (Spec.round2 100.00); [now compute|].
  apply round2_le. apply Q.le_max_r.
Qed.

Lemma multiplier_positive (e : EquipmentType) : 0 < Spec.multiplier e.
Proof. destruct e; reflexivity. Qed.

(** The last two statements keep the order of the running amounts. *)
Lemma minimum_then_round_le (x y m : Q) :
  x <= y ->
  Spec.amount_le
    (Return (div (Math.round (mul (Math.max (Num x) (Num m)) (Num 100))) (Num 100)))
    (Return (div (Math.round (mul (Math.max (Num y) (Num m)) (Num 100))) (Num 100))).
Proof.
  intros H. rewrite !minimum_then_round. unfold Spec.amount_le.
  rewrite !Qred_correct. apply round2_le. now apply Qmax_le_l.
Qed.

(** C9: with no environment override and each of the six equipment types,
    [calculateQuoteAmount] is monotone in the distance for every fixed
    weight argument, and monotone in the weight for every fixed
    distance. *)
Theorem C9_amount_monotone (e : EquipmentType) :
  (forall (totalWeight : option number) (d1 d2 : Q),
      d1 <= d2 ->
      Spec.amount_le
        (calculateQuoteAmount default_env (Num d1) (equipment_type e) totalWeight)
        (calculateQuoteAmount default_env (Num d2) (equipment_type e) totalWeight))
  /\ (forall (distanceMiles w1 w2 : Q),
         w1 <= w2 ->
         Spec.amount_le
           (calculateQuoteAmount default_env (Num distanceMiles) (equipment_type e)
                                 (Some (Num w1)))
           (calculateQuoteAmount default_env (Num distanceMiles) (equipment_type e)
                                 (Some (Num w2)))).
Proof.
  split.
  - intros totalWeight d1 d2 Hd.
    destruct (quoteAfterEquipment_default d1 e) as [x1 [Hx1 Hs1]].
    destruct (quoteAfterEquipment_default d2 e) as [x2 [Hx2 Hs2]].
    assert (Hx : x1 <= x2).
    { rewrite Hs1, Hs2. pose proof (multiplier_positive e) as Hm.
      unfold Spec.baseRatePerMile.
      apply Qmult_le_compat_r; [lra|now apply Qlt_le_weak]. }
    unfold calculateQuoteAmount. rewrite Hx1, Hx2.
    change (minimumQuote default_env) with (Num 100.00).
    destruct totalWeight as [[|w]|].
    + now apply minimum_then_round_le.
    + destruct (quoteWithWeight_surcharge x1 w) as [r1 [-> Hr1]].
      destruct (quoteWithWeight_surcharge x2 w) as [r2 [-> Hr2]].
      apply minimum_then_round_le. lra.
    + rewrite !(quoteWithWeight_light _ 0) by lra.
      now apply minimum_then_round_le.
  - intros d w1 w2 Hw.
    destruct (quoteAfterEquipment_default d e) as [x [Hx _]].
    unfold calculateQuoteAmount. rewrite Hx.
    change (minimumQuote default_env) with (Num 100.00).
    destruct (quoteWithWeight_surcharge x w1) as [r1 [-> Hr1]].
    destruct (quoteWithWeight_surcharge x w2) as [r2 [-> Hr2]].
    apply minimum_then_round_le.
    pose proof (surcharge_le w1 w2 Hw). lra.
Qed.

(** C9 at hotshot: 1 and 2000 miles at 12000 lb, and 9000 and 25000 lb at
    2000 miles. *)
Lemma C9_amount_monotone_witness :
  (1 <= 2000 /\ 9000 <= 25000)
  /\ Spec.amount_le
       (calculateQuoteAmount default_env (Num 1) "hotshot" (Some (Num 12000)))
       (calculateQuoteAmount default_env (Num 2000) "hotshot" (Some (Num 12000)))
  /\ Spec.amount_le
       (calculateQuoteAmount default_env (Num 2000) "hotshot" (Some (Num 9000)))
       (calculateQuoteAmount default_env (Num 2000) "hotshot" (Some (Num 25000))).
Proof.
  assert (H1 : 1 <= 2000) by lra.
  assert (H2 : 9000 <= 25000) by lra.
  split; [split; assumption|].
  split.
  - exact (proj1 (C9_amount_monotone hotshot) (Some (Num 12000)) 1 2000 H1).
  - exact (proj2 (C9_amount_monotone hotshot) 2000 9000 25000 H2).
Defined.

(** C10: for every configuration, distance and equipment type, a call of
    [calculateQuoteAmount] with a weight at or below the threshold 10000
    (zero and negative weights included) returns, and returns the amount
    of the call with weight 0, which is also the amount of the call with
    the weight omitted. *)
Theorem C10_weight_up_to_threshold
        (env : Env) (distanceMiles : number) (equipmentType : string) (w : Q) :
  w <= 10000 ->
  calculateQuoteAmount env distanceMiles equipmentType (Some (Num w))
  = calculateQuoteAmount env distanceMiles equipmentType (Some (Num 0))
  /\ calculateQuoteAmount env distanceMiles equipmentType None
     = calculateQuoteAmount env distanceMiles equipmentType (Some (Num 0))
  /\ exists amount,
      calculateQuoteAmount env distanceMiles equipmentType (Some (Num w))
      = Return amount.
Proof.
  intros H. split; [|split; [reflexivity|eexists; reflexivity]].
  unfold calculateQuoteAmount.
  rewrite (quoteWithWeight_light _ w) by exact H.
  rewrite (quoteWithWeight_light _ 0) by lra.
  reflexivity.
Qed.

(** C10 at 350 miles of reefer and the weight -5. *)
Lemma C10_weight_up_to_threshold_witness :
  -5 <= 10000
  /\ calculateQuoteAmount default_env (Num 350) "reefer" (Some (Num (-5)))
     = calculateQuoteAmount default_env (Num 350) "reefer" (Some (Num 0))
  /\ calculateQuoteAmount default_env (Num 350) "reefer" None
     = calculateQuoteAmount default_env (Num 350) "reefer" (Some (Num 0))
  /\ exists amount,
      calculateQuoteAmount default_env (Num 350) "reefer" (Some (Num (-5)))
      = Return amount.
Proof.
  assert (H : -5 <= 10000) by lra.
  split; [exact H|].
  exact (C10_weight_up_to_threshold default_env (Num 350) "reefer" (-5) H).
Defined.

(* ================================================================== *)
(** * Location resolver *)
(* ================================================================== *)

Import Geocoding.

(** The printer of the test doubles on the coordinates used below. *)
Example doubles_print :
  Doubles.Number_toString (Num (-79.3832)) = "-79.3832"
  /\ Doubles.Number_toString (Num 43.05) = "43.05"
  /\ Doubles.Number_toString (Num 7) = "7"
  /\ Doubles.Number_toString (Num (-0.1278)) = "-0.1278".
Proof. repeat split; vm_compute; reflexivity. Qed.

(** The bounds check, read on the rationals. *)
Lemma validateNorthAmericaBounds_true (lat lon : number) :
  validateNorthAmericaBounds lat lon = true <-> Spec.in_North_America lat lon.
Proof.
  unfold validateNorthAmericaBounds, Spec.in_North_America, ge, le.
  split.
  - destruct lat as [|la]; [discriminate|].
    destruct lon as [|lo]; [rewrite andb_false_r; discriminate|].
    rewrite !andb_true_iff, !Qle_bool_iff.
    intros [[[H1 H2] H3] H4]. exists la, lo. repeat split; lra.
  - intros [la [lo [-> [-> [[H1 H2] [H3 H4]]]]]].
    rewrite !andb_true_iff, !Qle_bool_iff. repeat split; lra.
Qed.

Section ResolverFacts.

Variable Number_toString : number -> string.
Variable prototype_member_text : string -> string.
Variable nominatim : string -> completion (option (list Nominatim.Place)).

Local Abbreviation geocode :=
  (geocodeLocation Number_toString prototype_member_text nominatim).
Local Abbreviation request := (Geocoding.request prototype_member_text nominatim).
Local Abbreviation query := (buildGeocodingQuery prototype_member_text).

(** The error for a point outside the box passes the outer handler
    unchanged: it has no [response] and its message names North
    America. *)
Lemma outside_bounds_Error_rethrown (latitude longitude : number) :
  response (outside_bounds_Error Number_toString latitude longitude) = None
  /\ includes "North America"
              (message (outside_bounds_Error Number_toString latitude longitude))
     = true.
Proof. split; reflexivity. Qed.

(** Every return of [geocodeLocation] comes from the statement after the
    bounds check. *)
Lemma geocodeLocation_Return (location : Location) (g : Geocode) :
  geocode location = Return g ->
  exists place others,
    request location = Return (Some (place :: others))
    /\ validateNorthAmericaBounds (Nominatim.lat place) (Nominatim.lon place) = true
    /\ g = {| latitude := Nominatim.lat place;
              longitude := Nominatim.lon place;
              accuracy := if present (postal_code location) then "postal_code"
                          else if present (state_province location) then "city_state"
                          else "city_only";
              display_name := Nominatim.display_name place |}.
Proof.
  unfold geocodeLocation.
  destruct (negb (present (city location)) || negb (present (country location)));
    [discriminate|].
  destruct (request location) as [[[|place others]|]|error]; simpl.
  - destruct (includes _ _); discriminate.
  - destruct (validateNorthAmericaBounds _ _) eqn:V; simpl.
    + intros [= <-]. exists place, others. repeat split. exact V.
    + discriminate.
  - destruct (includes _ _); discriminate.
  - destruct (response error); [discriminate|].
    destruct (includes _ _); discriminate.
Qed.

(** C8: every successful result of [geocodeLocation] has its latitude in
    [7, 83] and its longitude in [-180, -50]; and when the provider call
    of a location with city and country succeeds with a best match
    outside this box, [geocodeLocation] throws the out-of-bounds error
    ("Location is outside North America bounds. ..."). *)
Theorem C8_results_in_North_America (location : Location) :
  (forall g, geocode location = Return g ->
             Spec.in_North_America (latitude g) (longitude g))
  /\ (forall place others,
         present (city location) = true ->
         present (country location) = true ->
         request location = Return (Some (place :: others)) ->
         ~ Spec.in_North_America (Nominatim.lat place) (Nominatim.lon place) ->
         geocode location
         = Throw (outside_bounds_Error Number_toString (Nominatim.lat place)
                                       (Nominatim.lon place))).
Proof.
  split.
  - intros g Hg.
    destruct (geocodeLocation_Return location g Hg) as [place [others [_ [V ->]]]].
    simpl. now apply validateNorthAmericaBounds_true.
  - intros place others Hcity Hcountry Hreq Hout.
    unfold geocodeLocation. rewrite Hcity, Hcountry. simpl.
    rewrite Hreq. simpl.
    destruct (validateNorthAmericaBounds _ _) eqn:V.
    + exfalso. apply Hout. now apply validateNorthAmericaBounds_true.
    + reflexivity.
Qed.

(** The retry is tied to an exception: when the request with the postal
    code returns an empty list, no second request is made and
    [geocodeLocation] throws. *)
Lemma no_retry_on_empty_reply (location : Location) :
  present (postal_code location) = true ->
  nominatim (query (city location) (state_province location)
                   (postal_code location) (country location)) = Return (Some []) ->
  exists error, geocode location = Throw error.
Proof.
  intros Hpostal Hfirst. unfold geocodeLocation, Geocoding.request.
  destruct (negb (present (city location)) || negb (present (country location)));
    [eexists; reflexivity|].
  rewrite Hpostal, Hfirst. simpl.
  destruct (includes _ _); eexists; reflexivity.
Qed.

(** C2, what the code does: when the request with the postal code throws
    and the retry without it succeeds with a point inside the box,
    [geocodeLocation] succeeds, but the accuracy it returns is
    ["postal_code"], not ["city_state"]: the tag is computed from the
    postal code of the input, not from the query that succeeded.  The
    same location given without its postal code sends the very query of
    the retry and is tagged ["city_state"]. *)
Theorem C2_retry_is_tagged_postal_code
        (location : Location) (error : Error)
        (place : Nominatim.Place) (others : list Nominatim.Place) :
  present (city location) = true ->
  present (postal_code location) = true ->
  present (state_province location) = true ->
  present (country location) = true ->
  nominatim (query (city location) (state_province location)
                   (postal_code location) (country location)) = Throw error ->
  nominatim (query (city location) (state_province location)
                   None (country location)) = Return (Some (place :: others)) ->
  Spec.in_North_America (Nominatim.lat place) (Nominatim.lon place) ->
  (exists g, geocode location = Return g
             /\ accuracy g = "postal_code"
             /\ accuracy g <> "city_state"
             /\ latitude g = Nominatim.lat place
             /\ longitude g = Nominatim.lon place)
  /\ (exists g, geocode {| city := city location;
                           postal_code := None;
                           state_province := state_province location;
                           country := country location |} = Return g
                /\ accuracy g = "city_state"
                /\ latitude g = Nominatim.lat place
                /\ longitude g = Nominatim.lon place).
Proof.
  intros Hcity Hpostal Hstate Hcountry Hfirst Hretry Hin.
  apply validateNorthAmericaBounds_true in Hin.
  unfold geocodeLocation, Geocoding.request. simpl.
  rewrite Hcity, Hcountry, Hpostal, Hstate. simpl.
  rewrite Hfirst. simpl. rewrite Hretry. simpl.
  rewrite Hin. simpl.
  split; eexists; (split; [reflexivity|]); simpl; repeat split. discriminate.
Qed.

End ResolverFacts.

(** C8 at a city-name collision: the provider resolves London, CA to
    London in England, and [geocodeLocation] throws the out-of-bounds
    error. *)
Lemma C8_results_in_North_America_witness :
  (present (city Doubles.London) = true
   /\ present (country Doubles.London) = true
   /\ request Doubles.prototype_member_text Doubles.nominatim Doubles.London
      = Return (Some [ {| Nominatim.lat := Num 51.5074;
                          Nominatim.lon := Num (-0.1278);
                          Nominatim.display_name := "London, England, United Kingdom" |} ])
   /\ ~ Spec.in_North_America (Num 51.5074) (Num (-0.1278)))
  /\ geocodeLocation Doubles.Number_toString Doubles.prototype_member_text
                     Doubles.nominatim Doubles.London
     = Throw (new_Error
                "Location is outside North America bounds. Only US, Canada, and Mexico are supported. Coordinates: 51.5074, -0.1278").
Proof.
  assert (Hout : ~ Spec.in_North_America (Num 51.5074) (Num (-0.1278))).
  { intros H. apply validateNorthAmericaBounds_true in H. discriminate H. }
  split; [repeat split; exact Hout|].
  exact (proj2 (C8_results_in_North_America
                  Doubles.Number_toString Doubles.prototype_member_text
                  Doubles.nominatim Doubles.London)
               _ _ eq_refl eq_refl eq_refl Hout).
Defined.

(** C2 at the Toronto location with a provider that fails on the postal
    code query and knows the city query. *)
Lemma C2_retry_is_tagged_postal_code_witness :
  (Doubles.nominatim "M5H 2N2, Toronto, ON, Canada" = Throw Doubles.Network_Error
   /\ Spec.in_North_America (Num 43.6532) (Num (-79.3832)))
  /\ (exists g,
         geocodeLocation Doubles.Number_toString Doubles.prototype_member_text
                         Doubles.nominatim Doubles.Toronto = Return g
         /\ accuracy g = "postal_code"
         /\ accuracy g <> "city_state"
         /\ latitude g = Num 43.6532
         /\ longitude g = Num (-79.3832))
  /\ (exists g,
         geocodeLocation Doubles.Number_toString Doubles.prototype_member_text
                         Doubles.nominatim
                         {| city := Some "Toronto";
                            postal_code := None;
                            state_province := Some "ON";
                            country := Some "CA" |} = Return g
         /\ accuracy g = "city_state"
         /\ latitude g = Num 43.6532
         /\ longitude g = Num (-79.3832)).
Proof.
  assert (Hin : Spec.in_North_America (Num 43.6532) (Num (-79.3832))).
  { apply validateNorthAmericaBounds_true. reflexivity. }
  split; [split; [reflexivity|exact Hin]|].
  exact (C2_retry_is_tagged_postal_code
           Doubles.Number_toString Doubles.prototype_member_text Doubles.nominatim
           Doubles.Toronto Doubles.Network_Error _ _
           eq_refl eq_refl eq_refl eq_refl eq_refl eq_refl Hin).
Defined.

(* ================================================================== *)
(** * Distance resolver *)
(* ================================================================== *)

Import Distance.

(** [toFixed(2)] moves a number by at most half a hundredth. *)
Lemma toFixed2_close (x : Q) :
  exists y, toFixed2 (Num x) = Num y /\ y - (1 # 200) <= x <= y + (1 # 200).
Proof.
  unfold toFixed2. destruct (Qle_bool 0 x); eexists; (split; [reflexivity|]);
    rewrite Qred_correct.
  - pose proof (round2_nearest x) as [[H1 H2] _]. unfold Spec.round2 in *. lra.
  - pose proof (round2_nearest (- x)) as [[H1 H2] _]. unfold Spec.round2 in *. lra.
Qed.

Section DistanceFacts.

Variable Number_toString : number -> string.
Variable osrm : string -> completion (option OSRM.Data).
Variable ST_Distance : number -> number -> number -> number -> completion number.

Variables originLat originLon destLat destLon : number.

Local Abbreviation url :=
  (OSRM_BASE_URL Number_toString originLat originLon destLat destLon).
Local Abbreviation driving :=
  (calculateDrivingDistance Number_toString osrm originLat originLon destLat destLon).
Local Abbreviation great_circle :=
  (calculateGreatCircleDistance ST_Distance originLat originLon destLat destLon).
Local Abbreviation distance :=
  (calculateDistance Number_toString osrm ST_Distance
                     originLat originLon destLat destLon).

(** The driving path returns exactly when the reply holds a route; the
    two values are rounded to 2 decimals one by one. *)
Lemma calculateDrivingDistance_Return (r : object number) :
  driving = Return r ->
  exists route others,
    osrm url = Return (Some {| OSRM.routes := Some (route :: others) |})
    /\ r = [ ("distance_km", toFixed2 (div (OSRM.distance route) (Num 1000.0)));
             ("distance_miles",
              toFixed2 (mul (div (OSRM.distance route) (Num 1000.0))
                            (Num 0.621371))) ].
Proof.
  unfold calculateDrivingDistance.
  destruct (osrm url) as [[[[[|route others]|]]|]|error]; simpl;
    try discriminate.
  intros [= <-]. now exists route, others.
Qed.

Lemma calculateDrivingDistance_Throw :
  Spec.no_route (osrm url) <-> exists error, driving = Throw error.
Proof.
  unfold calculateDrivingDistance.
  destruct (osrm url) as [[[[[|route others]|]]|]|error]; simpl;
    split; try (intros _; eexists; reflexivity); try tauto.
  intros [error H]. discriminate H.
Qed.

(** The great-circle path returns the row of the SELECT: the miles
    column is the kilometres column times 0.621371. *)
Lemma calculateGreatCircleDistance_Return (r : object number) :
  great_circle = Return r ->
  exists metres,
    ST_Distance originLon originLat destLon destLat = Return metres
    /\ r = [ ("distance_km", div metres (Num 1000.0));
             ("distance_miles", mul (div metres (Num 1000.0)) (Num 0.621371)) ].
Proof.
  unfold calculateGreatCircleDistance, query_distance.
  destruct (ST_Distance originLon originLat destLon destLat) as [metres|error];
    simpl; [|discriminate].
  intros [= <-]. now exists metres.
Qed.

(** [calculateDistance] returns the driving result when there is one
    and otherwise whatever the great-circle path does. *)
Lemma calculateDistance_cases :
  (exists r, driving = Return r /\ distance = Return r)
  \/ (Spec.no_route (osrm url) /\ distance = great_circle).
Proof.
  unfold calculateDistance.
  destruct driving as [r|error] eqn:E; simpl.
  - left. now exists r.
  - right. split; [|reflexivity].
    apply calculateDrivingDistance_Throw. now exists error.
Qed.

(** C3, amended: a result of the great-circle path has
    [miles = kilometers * 0.621371] exactly.  A result of the driving
    path holds the route length in km rounded to 2 decimals and that
    length times 0.621371 rounded to 2 decimals, each rounded on its
    own, so that miles and kilometers * 0.621371 differ by less than
    0.01. *)
Theorem C3_miles_and_kilometers (r : object number) :
  distance = Return r ->
  (Spec.no_route (osrm url) /\ Spec.miles_from_kilometers r)
  \/ (exists route others,
         osrm url = Return (Some {| OSRM.routes := Some (route :: others) |})
         /\ get r "distance_km"
            = Own (toFixed2 (div (OSRM.distance route) (Num 1000.0)))
         /\ get r "distance_miles"
            = Own (toFixed2 (mul (div (OSRM.distance route) (Num 1000.0))
                                 (Num 0.621371)))
         /\ forall km mi,
             get r "distance_km" = Own (Num km) ->
             get r "distance_miles" = Own (Num mi) ->
             - 0.01 < mi - km * 0.621371 < 0.01).
Proof.
  intros H.
  destruct calculateDistance_cases as [[r' [Hd Hr]]|[Hno Hgc]].
  - right. rewrite Hr in H. injection H as <-.
    destruct (calculateDrivingDistance_Return r' Hd) as [route [others [Hosrm ->]]].
    exists route, others. split; [exact Hosrm|].
    split; [reflexivity|]. split; [reflexivity|].
    intros km mi. unfold get; simpl.
    destruct (OSRM.distance route) as [|m]; [discriminate|].
    change (div (Num m) (Num 1000.0)) with (Num (Qred (m / 1000.0))).
    rewrite mul_Num.
    destruct (toFixed2_close (Qred (m / 1000.0))) as [y1 [-> H1]].
    destruct (toFixed2_close (Qred (Qred (m / 1000.0) * 0.621371)))
      as [y2 [-> H2]].
    intros [= <-] [= <-].
    rewrite !Qred_correct in H2. rewrite Qred_correct in H1.
    set (x := m / 1000.0) in *. clearbody x. lra.
  - left. split; [exact Hno|].
    rewrite Hgc in H.
    destruct (calculateGreatCircleDistance_Return r H) as [metres [_ ->]].
    exists (div metres (Num 1000.0)),
           (mul (div metres (Num 1000.0)) (Num 0.621371)).
    repeat split.
Qed.

(** C4, amended: whenever the routing call gives no route and the
    great-circle path returns a result, [calculateDistance] returns
    that result.  The object has the properties [distance_km] and
    [distance_miles] only: reading [method] gives [undefined], as it
    does on every result of [calculateDistance], so a caller cannot
    tell the two paths apart. *)
Theorem C4_fallback_succeeds_untagged :
  (forall r, Spec.no_route (osrm url) ->
             great_circle = Return r ->
             distance = Return r /\ get r "method" = Undefined)
  /\ (forall r, distance = Return r -> get r "method" = Undefined).
Proof.
  assert (Hany : forall r, distance = Return r -> get r "method" = Undefined).
  { intros r H.
    destruct calculateDistance_cases as [[r' [Hd Hr]]|[Hno Hgc]].
    - rewrite Hr in H. injection H as <-.
      destruct (calculateDrivingDistance_Return r' Hd) as [? [? [_ ->]]].
      reflexivity.
    - rewrite Hgc in H.
      destruct (calculateGreatCircleDistance_Return r H) as [? [_ ->]].
      reflexivity. }
  split; [|exact Hany].
  intros r Hno Hgc.
  assert (Hd : distance = Return r).
  { destruct calculateDistance_cases as [[r' [Hd _]]|[_ ->]]; [|exact Hgc].
    apply calculateDrivingDistance_Throw in Hno. destruct Hno as [error He].
    rewrite He in Hd. discriminate Hd. }
  split; [exact Hd|now apply Hany].
Qed.

End DistanceFacts.

(** C3, as stated, fails on the driving path: for a route of 1000 metres
    [calculateDistance] returns 1 km and 0.62 miles, and 0.62 is not
    1 * 0.621371. *)
Lemma C3_driving_miles_rounded_separately :
  exists r,
    calculateDistance Doubles.Number_toString Doubles.osrm_1000m Doubles.ST_Distance
                      (Num 43.6532) (Num (-79.3832)) (Num 43.66) (Num (-79.39))
    = Return r
    /\ get r "distance_km" = Own (Num 1)
    /\ get r "distance_miles" = Own (Num (Qred 0.62))
    /\ ~ Spec.miles_from_kilometers r.
Proof.
  eexists. split; [reflexivity|]. split; [reflexivity|]. split; [reflexivity|].
  intros [km [mi [Hkm [Hmi H]]]].
  injection Hkm as <-. injection Hmi as <-. discriminate H.
Qed.

(** The amended C3 at a driving route of 1000 metres. *)
Lemma C3_miles_and_kilometers_witness :
  calculateDistance Doubles.Number_toString Doubles.osrm_1000m Doubles.ST_Distance
                    (Num 43.6532) (Num (-79.3832)) (Num 43.66) (Num (-79.39))
  = Return [ ("distance_km", Num 1); ("distance_miles", Num (Qred 0.62)) ]
  /\ exists route others,
      Doubles.osrm_1000m
        (OSRM_BASE_URL Doubles.Number_toString
                       (Num 43.6532) (Num (-79.3832)) (Num 43.66) (Num (-79.39)))
      = Return (Some {| OSRM.routes := Some (route :: others) |})
      /\ - 0.01 < Qred 0.62 - 1 * 0.621371 < 0.01.
Proof.
  split; [reflexivity|].
  destruct (C3_miles_and_kilometers
              Doubles.Number_toString Doubles.osrm_1000m Doubles.ST_Distance
              (Num 43.6532) (Num (-79.3832)) (Num 43.66) (Num (-79.39))
              [ ("distance_km", Num 1); ("distance_miles", Num (Qred 0.62)) ]
              eq_refl)
    as [[Hno _]|[route [others [Hosrm [_ [_ Hclose]]]]]].
  - destruct Hno.
  - exists route, others. split; [exact Hosrm|].
    exact (Hclose 1 (Qred 0.62) eq_refl eq_refl).
Defined.

(** C4, as stated, fails: when the routing call times out and the
    database answers, [calculateDistance] returns the great-circle
    result, and reading [method] on it gives [undefined], not
    ["great_circle"]. *)
Lemma C4_fallback_result_has_no_method :
  exists r,
    calculateDistance Doubles.Number_toString Doubles.osrm_timeout Doubles.ST_Distance
                      (Num 43.6532) (Num (-79.3832)) (Num 49.2827) (Num (-123.1216))
    = Return r
    /\ get r "distance_km" = Own (Num (Qred 3358.2))
    /\ get r "method" = Undefined.
Proof.
  eexists. split; [reflexivity|]. split; reflexivity.
Qed.

(** The amended C4 at a routing call that times out. *)
Lemma C4_fallback_succeeds_untagged_witness :
  (Spec.no_route
     (Doubles.osrm_timeout
        (OSRM_BASE_URL Doubles.Number_toString
                       (Num 43.6532) (Num (-79.3832)) (Num 49.2827) (Num (-123.1216))))
   /\ calculateGreatCircleDistance
        Doubles.ST_Distance (Num 43.6532) (Num (-79.3832)) (Num 49.2827) (Num (-123.1216))
      = Return [ ("distance_km", Num (Qred 3358.2));
                 ("distance_miles", Num (Qred (3358.2 * 0.621371))) ])
  /\ calculateDistance Doubles.Number_toString Doubles.osrm_timeout Doubles.ST_Distance
                       (Num 43.6532) (Num (-79.3832)) (Num 49.2827) (Num (-123.1216))
     = Return [ ("distance_km", Num (Qred 3358.2));
                ("distance_miles", Num (Qred (3358.2 * 0.621371))) ]
  /\ get [ ("distance_km", Num (Qred 3358.2));
           ("distance_miles", Num (Qred (3358.2 * 0.621371))) ] "method"
     = Undefined.
Proof.
  split; [split; [exact I|reflexivity]|].
  exact (proj1 (C4_fallback_succeeds_untagged
                  Doubles.Number_toString Doubles.osrm_timeout Doubles.ST_Distance
                  (Num 43.6532) (Num (-79.3832)) (Num 49.2827) (Num (-123.1216)))
               _ I eq_refl).
Defined.

(* ================================================================== *)
(** * Further properties of the pricing engine *)
(* ================================================================== *)

(** The shape of every call with a numeric distance and one of the six
    types: the running amount and the minimum are numbers, and the
    result is their maximum rounded to cents. *)
Lemma calculateQuoteAmount_numeric
      (env : Env) (d : Q) (e : EquipmentType) (totalWeight : option number) :
  exists running m,
    quoteWithWeight (quoteAfterEquipment env (Num d) (equipment_type e))
                    (match totalWeight with Some w => w | None => Num 0 end)
    = Num running
    /\ minimumQuote env = Num m
    /\ calculateQuoteAmount env (Num d) (equipment_type e) totalWeight
       = Return (Num (Qred (Spec.round2 (Qmax running m)))).
Proof.
  destruct (quoteAfterEquipment_Num env d e) as [x Hx].
  destruct (quoteWithWeight_Num
              x (match totalWeight with Some w => w | None => Num 0 end))
    as [r [Hr _]].
  destruct (or_else_Num (MINIMUM_QUOTE env) 100.00) as [m Hm].
  exists r, m. unfold calculateQuoteAmount, minimumQuote.
  rewrite Hx, Hr, Hm, minimum_then_round. repeat split.
Qed.

(** X1: the whole formula under the default configuration.  For a
    distance from 0 to a million miles, one of the six types and a weight
    of at most a million pounds, the amount is a whole number of cents
    less than a cent away from
    [max(distance * 2.00 * multiplier + surcharge, 100.00)], and it is
    the nearest cent whenever that value is at least a millionth away
    from the middle between two cents. *)
Theorem amount_within_a_cent (d : Q) (e : EquipmentType) (w : Q) :
  0 <= d <= 1000000 ->
  w <= 1000000 ->
  let exact := Qmax (d * 2.00 * Spec.multiplier e + Spec.surcharge w) 100.00 in
  exists amount,
    calculateQuoteAmount default_env (Num d) (equipment_type e) (Some (Num w))
    = Return (Num amount)
    /\ (exists cents : Z, amount == inject_Z cents / 100)
    /\ exact - (1 # 100) < amount < exact + (1 # 100)
    /\ (forall cents : Z,
          inject_Z cents / 100 - (4999 # 1000000) <= exact
          <= inject_Z cents / 100 + (4999 # 1000000) ->
          amount == inject_Z cents / 100).
Proof.
  intros _ _ exact.
  destruct (quoteAfterEquipment_default d e) as [x [Hx Hxv]].
  destruct (quoteWithWeight_surcharge x w) as [r [Hr Hv]].
  unfold calculateQuoteAmount. rewrite Hx, Hr.
  change (minimumQuote default_env) with (Num 100.00).
  rewrite minimum_then_round.
  eexists. split; [reflexivity|].
  assert (E : Qmax r 100.00 == exact).
  { unfold exact. apply Qmax_comp. rewrite Hv, Hxv. reflexivity. }
  destruct (round2_cents (Qmax r 100.00)) as [[cents Hc] [Hn Hw]].
  split; [exists cents; now rewrite Qred_correct|].
  split; [rewrite Qred_correct, <- E; exact Hn|].
  intros c H. rewrite Qred_correct. apply (Hw c). rewrite E. qlra.
Qed.

(** X1 at 250 miles of reefer with 12345 lb: 600.00 and 24 increments. *)
Lemma amount_within_a_cent_witness :
  (0 <= 250 <= 1000000 /\ 12345 <= 1000000)
  /\ exists amount,
      calculateQuoteAmount default_env (Num 250) (equipment_type reefer)
                           (Some (Num 12345))
      = Return (Num amount)
      /\ (exists cents : Z, amount == inject_Z cents / 100)
      /\ Qmax (250 * 2.00 * Spec.multiplier reefer + Spec.surcharge 12345) 100.00
         - (1 # 100) < amount
         < Qmax (250 * 2.00 * Spec.multiplier reefer + Spec.surcharge 12345) 100.00
           + (1 # 100)
      /\ (forall cents : Z,
            inject_Z cents / 100 - (4999 # 1000000)
            <= Qmax (250 * 2.00 * Spec.multiplier reefer + Spec.surcharge 12345)
                    100.00
            <= inject_Z cents / 100 + (4999 # 1000000) ->
            amount == inject_Z cents / 100).
Proof.
  assert (H1 : 0 <= 250 <= 1000000) by (split; discriminate).
  assert (H2 : 12345 <= 1000000) by discriminate.
  split; [split; assumption|].
  exact (amount_within_a_cent 250 reefer 12345 H1 H2).
Defined.

(** The amount as a function of the running amount, under the default
    minimum. *)
Lemma finish_le (x y : Q) :
  x <= y ->
  Qred (Spec.round2 (Qmax x 100.00)) <= Qred (Spec.round2 (Qmax y 100.00)).
Proof.
  intros H. rewrite !Qred_correct. apply round2_le. now apply Qmax_le_l.
Qed.

(** The running amount of the six types under the default rate, for any
    weight argument. *)
Lemma running_default (d : Q) (e : EquipmentType) (totalWeight : option number) :
  exists s,
    0 <= s
    /\ forall e',
      exists r,
        quoteWithWeight (quoteAfterEquipment default_env (Num d) (equipment_type e'))
                        (match totalWeight with Some w => w | None => Num 0 end)
        = Num r
        /\ r == d * Spec.baseRatePerMile * Spec.multiplier e' + s.
Proof.
  destruct totalWeight as [[|w]|].
  - exists 0. split; [lra|]. intros e'.
    destruct (quoteAfterEquipment_default d e') as [x [-> Hx]].
    exists x. split; [reflexivity|]. rewrite Hx. ring.
  - exists (Spec.surcharge w). split; [apply surcharge_nonneg|]. intros e'.
    destruct (quoteAfterEquipment_default d e') as [x [-> Hx]].
    destruct (quoteWithWeight_surcharge x w) as [r [-> Hr]].
    exists r. split; [reflexivity|]. rewrite Hr, Hx. reflexivity.
  - exists 0. split; [lra|]. intros e'.
    destruct (quoteAfterEquipment_default d e') as [x [-> Hx]].
    exists x. split; [apply quoteWithWeight_light; lra|]. rewrite Hx. ring.
Qed.

(** Under the default configuration the amount of a type with the
    smaller multiplier is the smaller one, for a non-negative distance. *)
Lemma amount_le_by_multiplier
      (d : Q) (e1 e2 : EquipmentType) (totalWeight : option number) :
  0 <= d ->
  Spec.multiplier e1 <= Spec.multiplier e2 ->
  Spec.amount_le
    (calculateQuoteAmount default_env (Num d) (equipment_type e1) totalWeight)
    (calculateQuoteAmount default_env (Num d) (equipment_type e2) totalWeight).
Proof.
  intros Hd Hm.
  destruct (running_default d e1 totalWeight) as [s [_ Hs]].
  destruct (Hs e1) as [r1 [Hr1 Hv1]]. destruct (Hs e2) as [r2 [Hr2 Hv2]].
  destruct (calculateQuoteAmount_numeric default_env d e1 totalWeight)
    as [r1' [m1 [Hr1' [Hm1 ->]]]].
  destruct (calculateQuoteAmount_numeric default_env d e2 totalWeight)
    as [r2' [m2 [Hr2' [Hm2 ->]]]].
  rewrite Hr1 in Hr1'. rewrite Hr2 in Hr2'.
  injection Hr1' as <-. injection Hr2' as <-.
  change (minimumQuote default_env) with (Num 100.00) in Hm1, Hm2.
  injection Hm1 as <-. injection Hm2 as <-.
  unfold Spec.amount_le. apply finish_le.
  rewrite Hv1, Hv2. unfold Spec.baseRatePerMile.
  assert (H : d * 2.00 * Spec.multiplier e1 <= d * 2.00 * Spec.multiplier e2).
  { rewrite <- !Qmult_assoc. rewrite !(Qmult_comm d).
    apply Qmult_le_compat_r; [|exact Hd].
    rewrite !(Qmult_comm 2.00). apply Qmult_le_compat_r; [exact Hm|lra]. }
  lra.
Qed.

(** X2: under the default configuration, for a non-negative distance and
    any weight argument, the six types are quoted in the order hotshot,
    straight truck, dry van, flatbed, reefer; reefer and step deck are
    quoted the same for every distance, weight and configuration. *)
Theorem equipment_types_ordered :
  (forall (d : Q) (totalWeight : option number),
      0 <= d ->
      let amount e :=
        calculateQuoteAmount default_env (Num d) (equipment_type e) totalWeight in
      Spec.amount_le (amount hotshot) (amount straight_truck)
      /\ Spec.amount_le (amount straight_truck) (amount dry_van)
      /\ Spec.amount_le (amount dry_van) (amount flatbed)
      /\ Spec.amount_le (amount flatbed) (amount reefer))
  /\ (forall (env : Env) (distanceMiles : number) (totalWeight : option number),
         calculateQuoteAmount env distanceMiles "reefer" totalWeight
         = calculateQuoteAmount env distanceMiles "step_deck" totalWeight).
Proof.
  split.
  - intros d totalWeight Hd amount. unfold amount.
    repeat split; apply amount_le_by_multiplier; try exact Hd;
      unfold Spec.multiplier; lra.
  - intros env distanceMiles totalWeight.
    unfold calculateQuoteAmount, quoteAfterEquipment.
    change (ToNumber (multiplier "reefer")) with (Num 1.2).
    change (ToNumber (multiplier "step_deck")) with (Num 1.20).
    destruct (mul distanceMiles (baseRatePerMile env)) as [|x]; [reflexivity|].
    rewrite !mul_Num.
    assert (E : x * 1.2 == x * 1.20) by (apply Qmult_comp; reflexivity).
    now rewrite (Qred_complete _ _ E).
Qed.

(** X2 at 250 miles and 15000 lb. *)
Lemma equipment_types_ordered_witness :
  0 <= 250
  /\ Spec.amount_le
       (calculateQuoteAmount default_env (Num 250) "hotshot" (Some (Num 15000)))
       (calculateQuoteAmount default_env (Num 250) "straight_truck" (Some (Num 15000)))
  /\ Spec.amount_le
       (calculateQuoteAmount default_env (Num 250) "straight_truck" (Some (Num 15000)))
       (calculateQuoteAmount default_env (Num 250) "dry_van" (Some (Num 15000)))
  /\ Spec.amount_le
       (calculateQuoteAmount default_env (Num 250) "dry_van" (Some (Num 15000)))
       (calculateQuoteAmount default_env (Num 250) "flatbed" (Some (Num 15000)))
  /\ Spec.amount_le
       (calculateQuoteAmount default_env (Num 250) "flatbed" (Some (Num 15000)))
       (calculateQuoteAmount default_env (Num 250) "reefer" (Some (Num 15000))).
Proof.
  assert (H : 0 <= 250) by lra.
  split; [exact H|].
  exact (proj1 equipment_types_ordered 250 (Some (Num 15000)) H).
Defined.

Lemma Qceiling_unique (x : Q) (k : Z) :
  inject_Z k < x <= inject_Z k + 1 -> Qceiling x = (k + 1)%Z.
Proof.
  intros [Hl Hu].
  pose proof (Qle_ceiling x) as H1. pose proof (Qceiling_lt x) as H2.
  unfold Z.sub in H2. rewrite inject_Z_plus, inject_Z_opp in H2.
  change (inject_Z 1) with 1 in H2.
  assert (Ha : inject_Z k < inject_Z (Qceiling x)) by qlra.
  assert (Hb : inject_Z (Qceiling x) < inject_Z (k + 2)).
  { rewrite inject_Z_plus. change (inject_Z 2) with 2. qlra. }
  rewrite <- Zlt_Qlt in Ha, Hb. lia.
Qed.

(** X3: the weight is charged by started hundreds of pounds: under every
    configuration, for every distance and equipment type, two weights in
    the same interval (10000 + 100 k, 10000 + 100 (k + 1)] give the same
    amount. *)
Theorem weights_in_one_increment
        (env : Env) (distanceMiles : number) (equipmentType : string)
        (k : Z) (w1 w2 : Q) :
  10000 + 100 * inject_Z k < w1 <= 10000 + 100 * (inject_Z k + 1) ->
  10000 + 100 * inject_Z k < w2 <= 10000 + 100 * (inject_Z k + 1) ->
  calculateQuoteAmount env distanceMiles equipmentType (Some (Num w1))
  = calculateQuoteAmount env distanceMiles equipmentType (Some (Num w2)).
Proof.
  intros H1 H2. unfold calculateQuoteAmount.
  assert (Hsame : forall q,
             quoteWithWeight q (Num w1) = quoteWithWeight q (Num w2)).
  { intros q. destruct (Z_lt_le_dec k 0) as [Hk|Hk].
    - assert (Hk' : inject_Z k + 1 <= 0).
      { assert (H : inject_Z (k + 1) <= inject_Z 0) by (rewrite <- Zle_Qle; lia).
        rewrite inject_Z_plus in H. exact H. }
      rewrite !quoteWithWeight_light; [reflexivity| |]; qlra.
    - assert (Hk' : 0 <= inject_Z k).
      { change 0 with (inject_Z 0). rewrite <- Zle_Qle. exact Hk. }
      unfold quoteWithWeight, WEIGHT_THRESHOLD. rewrite !gt_Num.
      assert (G1 : Qle_bool w1 10000 = false) by (apply Qle_bool_false; qlra).
      assert (G2 : Qle_bool w2 10000 = false) by (apply Qle_bool_false; qlra).
      rewrite G1, G2. simpl negb. cbv iota.
      rewrite !weightFactor_Num.
      rewrite (Qceiling_unique ((w1 - 10000) / 100) k)
        by (unfold Qdiv; change (/ 100) with (1 # 100); lra).
      rewrite (Qceiling_unique ((w2 - 10000) / 100) k)
        by (unfold Qdiv; change (/ 100) with (1 # 100); lra).
      reflexivity. }
  now rewrite Hsame.
Qed.

(** X3 at 10001 lb and 10100 lb, the first increment. *)
Lemma weights_in_one_increment_witness :
  (10000 + 100 * inject_Z 0 < 10001 <= 10000 + 100 * (inject_Z 0 + 1)
   /\ 10000 + 100 * inject_Z 0 < 10100 <= 10000 + 100 * (inject_Z 0 + 1))
  /\ calculateQuoteAmount default_env (Num 420) "flatbed" (Some (Num 10001))
     = calculateQuoteAmount default_env (Num 420) "flatbed" (Some (Num 10100)).
Proof.
  assert (H1 : 10000 + 100 * inject_Z 0 < 10001 <= 10000 + 100 * (inject_Z 0 + 1))
    by (split; reflexivity || discriminate).
  assert (H2 : 10000 + 100 * inject_Z 0 < 10100 <= 10000 + 100 * (inject_Z 0 + 1))
    by (split; reflexivity || discriminate).
  split; [split; assumption|].
  exact (weights_in_one_increment default_env (Num 420) "flatbed" 0 10001 10100
                                  H1 H2).
Defined.

(** X4: where the minimum binds, under the default configuration, for a
    distance that is not negative or a weight that carries no surcharge.
    When distance times rate times multiplier plus surcharge is at most
    100, the amount is exactly 100.00, so a distance of zero is not
    rejected but quoted the minimum; when it is at least 100.01, the
    amount is above the minimum. *)
Theorem minimum_quoted_up_to_100 (d : Q) (e : EquipmentType) (w : Q) :
  0 <= d \/ w <= 10000 ->
  let running := d * 2.00 * Spec.multiplier e + Spec.surcharge w in
  (running <= 100 ->
   calculateQuoteAmount default_env (Num d) (equipment_type e) (Some (Num w))
   = Return (Num 100))
  /\ (100.01 <= running ->
      exists amount,
        calculateQuoteAmount default_env (Num d) (equipment_type e) (Some (Num w))
        = Return (Num amount)
        /\ 100 < amount).
Proof.
  intros _ running.
  destruct (quoteAfterEquipment_default d e) as [x [Hx Hxv]].
  destruct (quoteWithWeight_surcharge x w) as [r [Hr Hv]].
  assert (Hrun : r == running).
  { unfold running. rewrite Hv, Hxv. reflexivity. }
  unfold calculateQuoteAmount. rewrite Hx, Hr.
  change (minimumQuote default_env) with (Num 100.00).
  rewrite minimum_then_round. rewrite <- Hrun.
  split; intros H.
  - assert (Hmax : Qmax r 100.00 == inject_Z 10000 / 100).
    { destruct (Q.max_spec r 100.00) as [[_ E]|[Hle E]].
      - apply (Qeq_trans _ 100.00); [exact E|reflexivity].
      - apply (Qeq_trans _ r); [exact E|].
        apply (Qeq_trans _ 100); [apply Qle_antisym; lra|reflexivity]. }
    assert (Hq : Spec.round2 (Qmax r 100.00) == 100).
    { rewrite (round2_comp _ _ Hmax).
      apply (Qeq_trans _ (inject_Z 10000 / 100));
        [apply round2_of_cents|reflexivity]. }
    now rewrite (Qred_complete _ _ Hq).
  - eexists. split; [reflexivity|].
    rewrite Qred_correct.
    apply Qlt_le_trans with (Spec.round2 100.01); [reflexivity|].
    apply round2_le.
    pose proof (Q.le_max_l r 100.00). lra.
Qed.

(** X4 at a distance of zero with 10000 lb. *)
Lemma minimum_quoted_up_to_100_witness :
  ((0 <= 0 \/ 10000 <= 10000)
   /\ 0 * 2.00 * Spec.multiplier dry_van + Spec.surcharge 10000 <= 100)
  /\ calculateQuoteAmount default_env (Num 0) (equipment_type dry_van)
                          (Some (Num 10000))
     = Return (Num 100).
Proof.
  assert (H1 : 0 <= 0 \/ 10000 <= 10000) by (left; discriminate).
  assert (H2 : 0 * 2.00 * Spec.multiplier dry_van + Spec.surcharge 10000 <= 100)
    by discriminate.
  split; [split; assumption|].
  exact (proj1 (minimum_quoted_up_to_100 0 dry_van 10000 H1) H2).
Defined.

(** X5: above the threshold the surcharge is between 0.001 per pound over
    the threshold and that plus one increment: for a running amount [q]
    and a weight [w > 10000] the weight branch gives [r] with
    [q + (w - 10000) / 1000 <= r < q + (w - 10000) / 1000 + 0.10]. *)
Theorem surcharge_per_pound (q w : Q) :
  10000 < w ->
  exists r,
    quoteWithWeight (Num q) (Num w) = Num r
    /\ q + (w - 10000) * 0.001 <= r < q + (w - 10000) * 0.001 + 0.10.
Proof.
  intros H. eexists. split; [now apply quoteWithWeight_heavy|].
  rewrite !Qred_correct.
  pose proof (Qle_ceiling ((w - 10000) / 100)) as H1.
  pose proof (Qceiling_lt ((w - 10000) / 100)) as H2.
  unfold Z.sub in H2. rewrite inject_Z_plus, inject_Z_opp in H2.
  change (inject_Z 1) with 1 in H2.
  qlra.
Qed.

(** X5 at 12345 lb: 24 increments, 2.40. *)
Lemma surcharge_per_pound_witness :
  10000 < 12345
  /\ exists r,
      quoteWithWeight (Num 500) (Num 12345) = Num r
      /\ 500 + (12345 - 10000) * 0.001 <= r < 500 + (12345 - 10000) * 0.001 + 0.10.
Proof.
  assert (H : 10000 < 12345) by reflexivity.
  split; [exact H|].
  exact (surcharge_per_pound 500 12345 H).
Defined.

(** X6: a distance that is [NaN], or an equipment type that names a
    member of [Object.prototype], makes the amount [NaN] under every
    configuration and for every weight argument: the call still returns,
    and the minimum quote is not applied. *)
Theorem NaN_is_not_floored
        (env : Env) (distanceMiles : number) (equipmentType : string)
        (totalWeight : option number) :
  distanceMiles = NaN \/ multiplier equipmentType = Inherited ->
  calculateQuoteAmount env distanceMiles equipmentType totalWeight = Return NaN.
Proof.
  intros [->|Hm]; unfold calculateQuoteAmount, quoteAfterEquipment.
  - simpl mul. f_equal. apply NaN_propagates.
  - rewrite Hm. simpl ToNumber. rewrite mul_NaN_r. f_equal.
    apply NaN_propagates.
Qed.

(** X6 at 100 miles of the equipment type ["toString"]. *)
Lemma NaN_is_not_floored_witness :
  (Num 100 = NaN \/ multiplier "toString" = Inherited)
  /\ calculateQuoteAmount default_env (Num 100) "toString" None = Return NaN.
Proof.
  assert (H : Num 100 = NaN \/ multiplier "toString" = Inherited)
    by (right; reflexivity).
  split; [exact H|].
  exact (NaN_is_not_floored default_env (Num 100) "toString" None H).
Defined.

(** X7: a configured rate that is falsy (unset, not a number, or zero)
    is replaced by the default 2.00, and a falsy configured minimum by
    the default 100.00, each on its own: every call gives the amount of
    the configuration with the default written in.  So neither a rate of
    zero nor a minimum of zero can be configured. *)
Theorem falsy_configuration_falls_back
        (env : Env) (distanceMiles : number) (equipmentType : string)
        (totalWeight : option number) :
  (truthy (BASE_RATE_PER_MILE env) = false ->
   calculateQuoteAmount env distanceMiles equipmentType totalWeight
   = calculateQuoteAmount {| BASE_RATE_PER_MILE := Num 2.00;
                             MINIMUM_QUOTE := MINIMUM_QUOTE env |}
                          distanceMiles equipmentType totalWeight)
  /\ (truthy (MINIMUM_QUOTE env) = false ->
      calculateQuoteAmount env distanceMiles equipmentType totalWeight
      = calculateQuoteAmount {| BASE_RATE_PER_MILE := BASE_RATE_PER_MILE env;
                                MINIMUM_QUOTE := Num 100.00 |}
                             distanceMiles equipmentType totalWeight).
Proof.
  split; intros H;
    unfold calculateQuoteAmount, quoteAfterEquipment, baseRatePerMile, minimumQuote,
      or_else;
    cbn [BASE_RATE_PER_MILE MINIMUM_QUOTE]; rewrite H; reflexivity.
Qed.

(** X7 at a configured minimum of zero: ten miles of dry van are quoted
    100.00, not 20.00. *)
Lemma falsy_configuration_falls_back_witness :
  truthy (MINIMUM_QUOTE {| BASE_RATE_PER_MILE := Num 2.00;
                           MINIMUM_QUOTE := Num 0 |}) = false
  /\ calculateQuoteAmount {| BASE_RATE_PER_MILE := Num 2.00;
                             MINIMUM_QUOTE := Num 0 |}
                          (Num 10) "dry_van" None
     = calculateQuoteAmount {| BASE_RATE_PER_MILE := Num 2.00;
                               MINIMUM_QUOTE := Num 100.00 |}
                            (Num 10) "dry_van" None
  /\ calculateQuoteAmount {| BASE_RATE_PER_MILE := Num 2.00;
                             MINIMUM_QUOTE := Num 0 |}
                          (Num 10) "dry_van" None
     = Return (Num 100).
Proof.
  split; [reflexivity|]. split; [|reflexivity].
  exact (proj2 (falsy_configuration_falls_back
                  {| BASE_RATE_PER_MILE := Num 2.00; MINIMUM_QUOTE := Num 0 |}
                  (Num 10) "dry_van" None) eq_refl).
Defined.

(* ================================================================== *)
(** * Further properties of the location resolver *)
(* ================================================================== *)

Lemma length_append (a b : string) :
  String.length (a ++ b) = (String.length a + String.length b)%nat.
Proof. induction a as [|c a IH]; simpl; [reflexivity|now rewrite IH]. Qed.

Lemma prefix_empty (s : string) : String.prefix "" s = true.
Proof. now destruct s. Qed.

Lemma present_nonempty (field : option string) :
  present field = true -> (0 < String.length (the field))%nat.
Proof.
  destruct field as [[|c s]|]; simpl; try discriminate. intros _. lia.
Qed.

(** The text of the not-found error names North America only if the
    query does. *)
Lemma not_found_names_North_America (q : string) :
  includes "North America" ("Could not geocode location: " ++ q)
  = includes "North America" q.
Proof. reflexivity. Qed.

Section ResolverProperties.

Variable Number_toString : number -> string.
Variable prototype_member_text : string -> string.
Variable nominatim : string -> completion (option (list Nominatim.Place)).

Local Abbreviation geocode :=
  (geocodeLocation Number_toString prototype_member_text nominatim).
Local Abbreviation request := (Geocoding.request prototype_member_text nominatim).
Local Abbreviation query := (buildGeocodingQuery prototype_member_text).

(** X8: [geocodeLocation] succeeds exactly when city and country are
    present, the request (with its retry) returns at least one place and
    the first place lies in the bounding box; the result then holds the
    coordinates and display name of that first place, later places
    being ignored, and an accuracy read off the input alone:
    ["postal_code"] if it has a postal code, else ["city_state"] if it
    has a state or province, else ["city_only"]. *)
Theorem geocodeLocation_succeeds_iff (location : Location) (g : Geocode) :
  geocode location = Return g
  <-> present (city location) = true
      /\ present (country location) = true
      /\ exists place others,
          request location = Return (Some (place :: others))
          /\ Spec.in_North_America (Nominatim.lat place) (Nominatim.lon place)
          /\ g = {| latitude := Nominatim.lat place;
                    longitude := Nominatim.lon place;
                    accuracy :=
                      if present (postal_code location) then "postal_code"
                      else if present (state_province location) then "city_state"
                      else "city_only";
                    display_name := Nominatim.display_name place |}.
Proof.
  split.
  - intros H.
    destruct (geocodeLocation_Return Number_toString prototype_member_text
                                     nominatim location g H)
      as [place [others [Hreq [V Hg]]]].
    unfold geocodeLocation in H.
    destruct (present (city location)); [|discriminate H].
    destruct (present (country location)); [|discriminate H].
    repeat split. exists place, others.
    split; [exact Hreq|]. split; [|exact Hg].
    now apply validateNorthAmericaBounds_true.
  - intros [Hcity [Hcountry [place [others [Hreq [Hin ->]]]]]].
    apply validateNorthAmericaBounds_true in Hin.
    unfold geocodeLocation. rewrite Hcity, Hcountry. simpl.
    rewrite Hreq. simpl. rewrite Hin. reflexivity.
Qed.

(** X9: every error [geocodeLocation] throws is a plain error without an
    HTTP [response] attached, and its message is the required-fields
    message, or starts with "Geocoding API error: " or with
    "Geocoding failed: ", or names North America. *)
Theorem geocodeLocation_errors (location : Location) (error : Error) :
  geocode location = Throw error ->
  response error = None
  /\ (message error = "City and country are required for geocoding"
      \/ String.prefix "Geocoding API error: " (message error) = true
      \/ String.prefix "Geocoding failed: " (message error) = true
      \/ includes "North America" (message error) = true).
Proof.
  unfold geocodeLocation.
  destruct (negb (present (city location)) || negb (present (country location))).
  - intros [= <-]. split; [reflexivity|]. now left.
  - assert (Hhandler : forall e0,
               match response e0 with
               | Some r =>
                   Throw (new_Error ("Geocoding API error: "
                                     ++ Number_toString (status r)
                                     ++ " - " ++ statusText r))
               | None =>
                   if includes "North America" (message e0) then Throw e0
                   else Throw (new_Error ("Geocoding failed: " ++ message e0))
               end = @Throw Geocode error ->
               response error = None
               /\ (message error = "City and country are required for geocoding"
                   \/ String.prefix "Geocoding API error: " (message error) = true
                   \/ String.prefix "Geocoding failed: " (message error) = true
                   \/ includes "North America" (message error) = true)).
    { intros e0. destruct (response e0) eqn:R.
      - intros [= <-]. split; [reflexivity|]. right. left.
        simpl. apply prefix_empty.
      - destruct (includes "North America" (message e0)) eqn:I.
        + intros [= <-]. split; [exact R|]. now repeat right.
        + intros [= <-]. split; [reflexivity|]. right. right. left.
          simpl. apply prefix_empty. }
    destruct (request location) as [[[|place others]|]|e0]; simpl.
    + apply (Hhandler (new_Error ("Could not geocode location: " ++ _))).
    + destruct (validateNorthAmericaBounds _ _); simpl; [discriminate|].
      intros [= <-]. split; [reflexivity|]. now repeat right.
    + apply (Hhandler (new_Error ("Could not geocode location: " ++ _))).
    + apply Hhandler.
Qed.

(** X10: with a postal code and a city present, the first query is the
    postal code, a comma and a space, and then the query of the retry;
    in particular the retry never repeats the request that failed. *)
Theorem retry_query (location : Location) :
  present (postal_code location) = true ->
  present (city location) = true ->
  query (city location) (state_province location)
        (postal_code location) (country location)
  = the (postal_code location) ++ ", "
    ++ query (city location) (state_province location) None (country location)
  /\ query (city location) (state_province location)
           (postal_code location) (country location)
     <> query (city location) (state_province location) None (country location).
Proof.
  intros Hpostal Hcity.
  assert (E : query (city location) (state_province location)
                    (postal_code location) (country location)
              = the (postal_code location) ++ ", "
                ++ query (city location) (state_province location)
                         None (country location)).
  { unfold buildGeocodingQuery. rewrite Hpostal, Hcity. simpl.
    destruct (present (state_province location));
      destruct (present (country location)); reflexivity. }
  split; [exact E|].
  intros H. rewrite E in H.
  apply (f_equal String.length) in H. rewrite !length_append in H.
  pose proof (present_nonempty _ Hpostal). lia.
Qed.

(** X11: when the provider has no match (a falsy or empty reply of the
    request that counts), [geocodeLocation] throws "Geocoding failed:
    Could not geocode location: " followed by the first query, the one
    with the postal code; but when that query itself names North America
    the handler takes the error for a bounds error and throws it without
    the "Geocoding failed: " prefix. *)
Theorem no_match_error (location : Location) :
  present (city location) = true ->
  present (country location) = true ->
  request location = Return None \/ request location = Return (Some []) ->
  let q := query (city location) (state_province location)
                 (postal_code location) (country location) in
  geocode location
  = Throw (new_Error (if includes "North America" q
                      then "Could not geocode location: " ++ q
                      else "Geocoding failed: Could not geocode location: " ++ q)).
Proof.
  intros Hcity Hcountry Hreq. cbv zeta.
  unfold geocodeLocation. rewrite Hcity, Hcountry. cbn [negb orb]. cbv zeta.
  set (q := query (city location) (state_province location)
                  (postal_code location) (country location)).
  clearbody q.
  destruct Hreq as [H|H]; rewrite H; unfold bind, try_catch;
    cbn [response new_Error message];
    rewrite not_found_names_North_America;
    destruct (includes "North America" q); reflexivity.
Qed.

End ResolverProperties.

(** X9 at the city-name collision: the error for London carries no
    [response] and names North America. *)
Lemma geocodeLocation_errors_witness :
  geocodeLocation Doubles.Number_toString Doubles.prototype_member_text
                  Doubles.nominatim Doubles.London
  = Throw (new_Error
             "Location is outside North America bounds. Only US, Canada, and Mexico are supported. Coordinates: 51.5074, -0.1278")
  /\ response (new_Error
                 "Location is outside North America bounds. Only US, Canada, and Mexico are supported. Coordinates: 51.5074, -0.1278")
     = None.
Proof.
  split; [reflexivity|].
  exact (proj1 (geocodeLocation_errors
                  Doubles.Number_toString Doubles.prototype_member_text
                  Doubles.nominatim Doubles.London _ eq_refl)).
Defined.

(** X10 at the Toronto location. *)
Lemma retry_query_witness :
  (present (postal_code Doubles.Toronto) = true
   /\ present (city Doubles.Toronto) = true)
  /\ buildGeocodingQuery Doubles.prototype_member_text
       (Some "Toronto") (Some "ON") (Some "M5H 2N2") (Some "CA")
     = "M5H 2N2, Toronto, ON, Canada"
  /\ buildGeocodingQuery Doubles.prototype_member_text
       (Some "Toronto") (Some "ON") None (Some "CA")
     = "Toronto, ON, Canada".
Proof.
  split; [split; reflexivity|].
  split; [|reflexivity].
  exact (eq_trans
           (proj1 (retry_query Doubles.prototype_member_text Doubles.Toronto
                               eq_refl eq_refl))
           eq_refl).
Defined.

(** X11 at a city the provider does not know. *)
Lemma no_match_error_witness :
  (present (city Doubles.Atlantis) = true
   /\ present (country Doubles.Atlantis) = true
   /\ request Doubles.prototype_member_text Doubles.nominatim_no_match
              Doubles.Atlantis = Return (Some []))
  /\ geocodeLocation Doubles.Number_toString Doubles.prototype_member_text
                     Doubles.nominatim_no_match Doubles.Atlantis
     = Throw (new_Error
                "Geocoding failed: Could not geocode location: Atlantis, United States").
Proof.
  split; [repeat split|].
  exact (no_match_error Doubles.Number_toString Doubles.prototype_member_text
                        Doubles.nominatim_no_match Doubles.Atlantis
                        eq_refl eq_refl (or_intror eq_refl)).
Defined.

(* ================================================================== *)
(** * Further properties of the distance resolver *)
(* ================================================================== *)

Ltac per_thousand :=
  unfold Qdiv in *;
  change (/ 1000.0) with (10 # 10000) in *;
  change (/ 1000) with (1 # 1000) in *.

Lemma toFixed2_nonneg (x : Q) :
  0 <= x -> toFixed2 (Num x) = Num (Qred (Spec.round2 x)).
Proof.
  intros H. unfold toFixed2. apply Qle_bool_iff in H. now rewrite H.
Qed.

Section DistanceProperties.

Variable Number_toString : number -> string.
Variable osrm : string -> completion (option OSRM.Data).
Variables originLat originLon destLat destLon : number.

Local Abbreviation url :=
  (OSRM_BASE_URL Number_toString originLat originLon destLat destLon).

(** The driving path on a reply that holds a route. *)
Lemma calculateDistance_driving
      (ST_Distance : number -> number -> number -> number -> completion number)
      (route : OSRM.Route) (others : list OSRM.Route) :
  osrm url = Return (Some {| OSRM.routes := Some (route :: others) |}) ->
  calculateDistance Number_toString osrm ST_Distance
                    originLat originLon destLat destLon
  = Return [ ("distance_km", toFixed2 (div (OSRM.distance route) (Num 1000.0)));
             ("distance_miles",
              toFixed2 (mul (div (OSRM.distance route) (Num 1000.0))
                            (Num 0.621371))) ].
Proof.
  intros H.
  unfold calculateDistance, calculateDrivingDistance. rewrite H. reflexivity.
Qed.

(** X12: when the routing reply holds a route, [calculateDistance]
    returns the driving result computed from the first route, whatever
    the database would answer (also when it is down); further routes of
    the reply are ignored. *)
Theorem driving_result_preferred
        (route : OSRM.Route) (others : list OSRM.Route) :
  osrm url = Return (Some {| OSRM.routes := Some (route :: others) |}) ->
  forall ST_Distance : number -> number -> number -> number -> completion number,
    calculateDistance Number_toString osrm ST_Distance
                      originLat originLon destLat destLon
    = Return [ ("distance_km", toFixed2 (div (OSRM.distance route) (Num 1000.0)));
               ("distance_miles",
                toFixed2 (mul (div (OSRM.distance route) (Num 1000.0))
                              (Num 0.621371))) ].
Proof.
  intros H ST_Distance. now apply calculateDistance_driving with (others := others).
Qed.

(** X13: when the routing call gives no route and the database fails
    too, [calculateDistance] throws "Failed to calculate distance: "
    followed by the message of the database error; the routing error is
    not reported.  The database is asked with longitude before
    latitude. *)
Theorem total_failure_reports_database
        (ST_Distance : number -> number -> number -> number -> completion number)
        (error : Error) :
  Spec.no_route (osrm url) ->
  ST_Distance originLon originLat destLon destLat = Throw error ->
  calculateDistance Number_toString osrm ST_Distance
                    originLat originLon destLat destLon
  = Throw (new_Error ("Failed to calculate distance: " ++ message error)).
Proof.
  intros Hno Hdb.
  apply (calculateDrivingDistance_Throw Number_toString osrm ST_Distance) in Hno.
  destruct Hno as [e He].
  unfold calculateDistance. rewrite He. simpl.
  unfold calculateGreatCircleDistance, query_distance. rewrite Hdb. reflexivity.
Qed.

(** X14: for a length from 0 to 100,000 km, on either path, both values
    of the result are non-negative numbers, the miles do not exceed the
    kilometres, and the kilometres are less than 0.01 away from the
    length in metres divided by 1000.  On the driving path both values
    are whole hundredths. *)
Theorem distance_result_ranges
        (ST_Distance : number -> number -> number -> number -> completion number)
        (d : Q) :
  0 <= d <= 100000000 ->
  (forall route others,
      osrm url = Return (Some {| OSRM.routes := Some (route :: others) |}) ->
      OSRM.distance route = Num d ->
      exists km mi,
        calculateDistance Number_toString osrm ST_Distance
                          originLat originLon destLat destLon
        = Return [ ("distance_km", Num km); ("distance_miles", Num mi) ]
        /\ 0 <= mi <= km
        /\ (exists n : Z, km == inject_Z n / 100)
        /\ (exists n : Z, mi == inject_Z n / 100)
        /\ d / 1000 - (1 # 100) < km < d / 1000 + (1 # 100))
  /\ (Spec.no_route (osrm url) ->
      ST_Distance originLon originLat destLon destLat = Return (Num d) ->
      exists km mi,
        calculateDistance Number_toString osrm ST_Distance
                          originLat originLon destLat destLon
        = Return [ ("distance_km", Num km); ("distance_miles", Num mi) ]
        /\ 0 <= mi <= km
        /\ d / 1000 - (1 # 100) < km < d / 1000 + (1 # 100)).
Proof.
  intros [Hd _]. split.
  - intros route others Hosrm Hroute.
    rewrite (calculateDistance_driving ST_Distance route others Hosrm), Hroute.
    change (div (Num d) (Num 1000.0)) with (Num (Qred (d / 1000.0))).
    rewrite mul_Num.
    assert (Ex : Qred (d / 1000.0) == d / 1000).
    { rewrite Qred_correct. per_thousand. lra. }
    set (x := Qred (d / 1000.0)) in *. clearbody x.
    assert (Hx : 0 <= x) by (rewrite Ex; per_thousand; lra).
    assert (Ey : Qred (x * 0.621371) == x * 0.621371) by apply Qred_correct.
    set (y := Qred (x * 0.621371)) in *. clearbody y.
    assert (Hy : 0 <= y) by (rewrite Ey; lra).
    rewrite (toFixed2_nonneg _ Hx), (toFixed2_nonneg _ Hy).
    eexists. eexists. split; [reflexivity|].
    rewrite !Qred_correct.
    split; [split|].
    + apply Qle_trans with (Spec.round2 0); [discriminate|].
      now apply round2_le.
    + apply round2_le. rewrite Ey. lra.
    + split; [eexists; rewrite Qred_correct; unfold Spec.round2; reflexivity|].
      split; [eexists; rewrite Qred_correct; unfold Spec.round2; reflexivity|].
      rewrite <- Ex. pose proof (round2_nearest x) as [[H1 H2] _]. lra.
  - intros Hno Hdb.
    apply (calculateDrivingDistance_Throw Number_toString osrm ST_Distance) in Hno.
    destruct Hno as [e He].
    unfold calculateDistance. rewrite He.
    unfold calculateGreatCircleDistance, query_distance. rewrite Hdb.
    exists (Qred (d / 1000.0)), (Qred (Qred (d / 1000.0) * 0.621371)).
    split; [reflexivity|].
    rewrite !Qred_correct. per_thousand. repeat split; lra.
Qed.

End DistanceProperties.

(** X12 at a route of 1000 metres and a database that is down. *)
Lemma driving_result_preferred_witness :
  Doubles.osrm_1000m
    (OSRM_BASE_URL Doubles.Number_toString
                   (Num 43.6532) (Num (-79.3832)) (Num 43.66) (Num (-79.39)))
  = Return (Some {| OSRM.routes := Some [ {| OSRM.distance := Num 1000 |} ] |})
  /\ calculateDistance Doubles.Number_toString Doubles.osrm_1000m
                       Doubles.ST_Distance_down
                       (Num 43.6532) (Num (-79.3832)) (Num 43.66) (Num (-79.39))
     = Return [ ("distance_km", Num 1); ("distance_miles", Num (Qred 0.62)) ].
Proof.
  split; [reflexivity|].
  exact (driving_result_preferred
           Doubles.Number_toString Doubles.osrm_1000m
           (Num 43.6532) (Num (-79.3832)) (Num 43.66) (Num (-79.39))
           _ _ eq_refl Doubles.ST_Distance_down).
Defined.

(** X13 at a routing call that times out and a database that is down. *)
Lemma total_failure_reports_database_witness :
  (Spec.no_route
     (Doubles.osrm_timeout
        (OSRM_BASE_URL Doubles.Number_toString
                       (Num 43.6532) (Num (-79.3832)) (Num 49.2827) (Num (-123.1216))))
   /\ Doubles.ST_Distance_down (Num (-79.3832)) (Num 43.6532)
                               (Num (-123.1216)) (Num 49.2827)
      = Throw Doubles.Connection_Error)
  /\ calculateDistance Doubles.Number_toString Doubles.osrm_timeout
                       Doubles.ST_Distance_down
                       (Num 43.6532) (Num (-79.3832)) (Num 49.2827) (Num (-123.1216))
     = Throw (new_Error
                "Failed to calculate distance: connect ECONNREFUSED 127.0.0.1:5432").
Proof.
  split; [split; [exact I|reflexivity]|].
  exact (total_failure_reports_database
           Doubles.Number_toString Doubles.osrm_timeout
           (Num 43.6532) (Num (-79.3832)) (Num 49.2827) (Num (-123.1216))
           Doubles.ST_Distance_down Doubles.Connection_Error I eq_refl).
Defined.

(** X14 at a route of 4,500 km: 4500 km and 2796.17 miles. *)
Lemma distance_result_ranges_witness :
  0 <= 4500000 <= 100000000
  /\ exists km mi,
      calculateDistance Doubles.Number_toString Doubles.osrm_4500km
                        Doubles.ST_Distance
                        (Num 43.6532) (Num (-79.3832)) (Num 49.2827) (Num (-123.1216))
      = Return [ ("distance_km", Num km); ("distance_miles", Num mi) ]
      /\ 0 <= mi <= km
      /\ (exists n : Z, km == inject_Z n / 100)
      /\ (exists n : Z, mi == inject_Z n / 100)
      /\ 4500000 / 1000 - (1 # 100) < km < 4500000 / 1000 + (1 # 100).
Proof.
  assert (H : 0 <= 4500000 <= 100000000) by (split; discriminate).
  split; [exact H|].
  exact (proj1 (distance_result_ranges
                  Doubles.Number_toString Doubles.osrm_4500km
                  (Num 43.6532) (Num (-79.3832)) (Num 49.2827) (Num (-123.1216))
                  Doubles.ST_Distance 4500000 H)
               _ _ eq_refl eq_refl).
Defined.

(* ================================================================== *)
(** * Properties of the location rules of [validateQuote] *)
(* ================================================================== *)

(** One character of a match: the string is not empty, its first
    character is in the class, and the match goes on behind it. *)
Ltac match_character H v :=
  destruct v as [|? v]; [discriminate H|];
  cbv beta iota in H;
  apply andb_prop in H; destruct H as [? H].

Ltac match_end H v :=
  apply String.eqb_eq in H; subst v.

Lemma usZipRegex_length (value : string) :
  RegExp.test Validation.usZipRegex value = true ->
  String.length value = 5%nat \/ String.length value = 10%nat.
Proof.
  unfold RegExp.test, Validation.usZipRegex. cbn [RegExp.times RegExp.run].
  intros H.
  do 5 match_character H value.
  apply orb_prop in H. destruct H as [H|H].
  - do 5 match_character H value. match_end H value. now right.
  - match_end H value. now left.
Qed.

Lemma caPostalRegex_length (value : string) :
  RegExp.test Validation.caPostalRegex value = true ->
  String.length value = 7%nat.
Proof.
  unfold RegExp.test, Validation.caPostalRegex. cbn [RegExp.run].
  intros H.
  do 7 match_character H value. match_end H value. reflexivity.
Qed.

(** Every string the Mexican pattern matches is matched by the US one. *)
Lemma mxPostalRegex_usZipRegex (value : string) :
  RegExp.test Validation.mxPostalRegex value = true ->
  RegExp.test Validation.usZipRegex value = true.
Proof.
  unfold RegExp.test, Validation.mxPostalRegex, Validation.usZipRegex.
  cbn [RegExp.times RegExp.run].
  intros H.
  do 5 match_character H value. match_end H value.
  cbv beta iota.
  repeat match goal with E : _ = true |- _ => rewrite E; clear E end.
  reflexivity.
Qed.

Section PostalCode.

Variable trim : string -> string.

(** X15: the postal code rule leaves no message exactly when the trimmed
    value is empty, a US ZIP or ZIP+4 code, or a Canadian postal code.
    The Mexican pattern admits nothing the US one does not, and an
    admitted value has 0, 5, 7 or 10 characters, so the limit of 20
    characters never decides. *)
Theorem postal_code_rule_accepts (value : string) :
  (snd (Validation.postal_code_rule trim (Some value)) = []
   <-> (trim value = ""
        \/ RegExp.test Validation.usZipRegex (trim value) = true
        \/ RegExp.test Validation.caPostalRegex (trim value) = true)%string)
  /\ (snd (Validation.postal_code_rule trim (Some value)) = [] ->
      In (String.length (trim value)) [0; 5; 7; 10]%nat).
Proof.
  assert (Hlen : (trim value = ""
                  \/ RegExp.test Validation.usZipRegex (trim value) = true
                  \/ RegExp.test Validation.caPostalRegex (trim value) = true)%string
                 -> In (String.length (trim value)) [0; 5; 7; 10]%nat).
  { intros [H|[H|H]].
    - rewrite H. simpl. tauto.
    - apply usZipRegex_length in H. simpl. destruct H as [H|H]; rewrite H; tauto.
    - apply caPostalRegex_length in H. simpl. rewrite H. tauto. }
  assert (Hiff : snd (Validation.postal_code_rule trim (Some value)) = []
                 <-> (trim value = ""
                      \/ RegExp.test Validation.usZipRegex (trim value) = true
                      \/ RegExp.test Validation.caPostalRegex (trim value) = true)%string).
  { split.
    - unfold Validation.postal_code_rule. cbn [snd].
      intros H. apply app_eq_nil in H. destruct H as [_ H].
      unfold Validation.postal_code_custom, JS.present in H.
      destruct (String.eqb (trim value) "") eqn:E.
      + left. now apply String.eqb_eq.
      + cbn [negb] in H.
        destruct (RegExp.test Validation.usZipRegex (trim value)) eqn:U;
          [now right; left|].
        destruct (RegExp.test Validation.caPostalRegex (trim value)) eqn:C;
          [now right; right|].
        destruct (RegExp.test Validation.mxPostalRegex (trim value)) eqn:M.
        * apply mxPostalRegex_usZipRegex in M. congruence.
        * discriminate H.
    - intros H. pose proof (Hlen H) as L.
      unfold Validation.postal_code_rule. cbn [snd].
      assert (Validation.isLength 0 20 (trim value) = true) as ->.
      { unfold Validation.isLength. simpl in L.
        destruct L as [L|[L|[L|[L|[]]]]]; rewrite <- L; reflexivity. }
      unfold Validation.postal_code_custom, JS.present.
      destruct H as [H|[H|H]].
      + rewrite H. reflexivity.
      + rewrite H. destruct (String.eqb (trim value) ""); reflexivity.
      + rewrite H. rewrite orb_true_r.
        destruct (String.eqb (trim value) ""); reflexivity. }
  split; [exact Hiff|]. intros H. apply Hlen, Hiff, H.
Qed.

End PostalCode.

Lemma check_nil (ok : bool) (msg : string) :
  Validation.check ok msg = [] -> ok = true.
Proof. destruct ok; [reflexivity|discriminate]. Qed.

Lemma string_append_assoc (a b c : string) :
  ((a ++ b) ++ c = a ++ (b ++ c))%string.
Proof. induction a as [|x a IH]; simpl; [reflexivity|now rewrite IH]. Qed.

Lemma join_push (sep : string) (parts : list string) (s : string) :
  parts <> [] ->
  JS.join sep (JS.push parts s) = (JS.join sep parts ++ sep ++ s)%string.
Proof.
  unfold JS.push. induction parts as [|p ps IH]; [congruence|]. intros _.
  destruct ps as [|p' ps]; [reflexivity|].
  change (JS.join sep ((p :: p' :: ps) ++ [s]))
    with (p ++ sep ++ JS.join sep ((p' :: ps) ++ [s]))%string.
  rewrite IH by discriminate.
  change (JS.join sep (p :: p' :: ps))
    with (p ++ sep ++ JS.join sep (p' :: ps))%string.
  now rewrite !string_append_assoc.
Qed.

Lemma isIn_countries (value : string) :
  Validation.isIn [ "US"; "CA"; "MX" ]%string value = true ->
  (value = "US" \/ value = "CA" \/ value = "MX")%string.
Proof.
  unfold Validation.isIn. cbn [existsb]. rewrite orb_false_r.
  intros H. apply orb_prop in H. destruct H as [H|H].
  - left. now apply String.eqb_eq.
  - apply orb_prop in H. destruct H as [H|H].
    + right. left. now apply String.eqb_eq.
    + right. right. now apply String.eqb_eq.
Qed.

Section ValidatedLocation.

Variable trim : string -> string.
Variable prototype_member_text : string -> string.

(** X16: a location that passes the four location rules reaches the
    geocoder with a city and a country, and its query ends with ", "
    and the full name of the country: United States, Canada or Mexico.
    The member of the prototype and the bare code never show up. *)
Theorem validated_location_query
        (side : string) (location location' : Geocoding.Location) :
  Controller.validateLocation trim side location = (location', []) ->
  JS.present (Geocoding.city location') = true
  /\ JS.present (Geocoding.country location') = true
  /\ exists before name,
      In (JS.the (Geocoding.country location'), name) Geocoding.countryNames
      /\ Geocoding.buildGeocodingQuery prototype_member_text
           (Geocoding.city location') (Geocoding.state_province location')
           (Geocoding.postal_code location') (Geocoding.country location')
         = (before ++ ", " ++ name)%string.
Proof.
  unfold Controller.validateLocation, Validation.city_rule, Validation.country_rule.
  destruct (Validation.postal_code_rule trim (Geocoding.postal_code location))
    as [postal_code postal_code_errors].
  destruct (Validation.state_province_rule trim (Geocoding.state_province location))
    as [state_province state_province_errors].
  intros [= <- H].
  apply app_eq_nil in H. destruct H as [Hcity H].
  apply app_eq_nil in H. destruct H as [_ H].
  apply app_eq_nil in H. destruct H as [_ Hcountry].
  apply app_eq_nil in Hcity. destruct Hcity as [Hcity _].
  apply check_nil in Hcity.
  apply app_eq_nil in Hcountry. destruct Hcountry as [Hcountry Hin].
  apply check_nil in Hcountry. apply check_nil in Hin.
  cbn [Geocoding.city Geocoding.country Geocoding.state_province
       Geocoding.postal_code JS.present JS.the].
  unfold Validation.notEmpty in Hcity, Hcountry.
  split; [exact Hcity|]. split; [exact Hcountry|].
  unfold Geocoding.buildGeocodingQuery.
  cbn [JS.present JS.the]. rewrite Hcity, Hcountry.
  set (city := trim (JS.the (Geocoding.city location))) in *.
  set (parts := if JS.present state_province
                then JS.push (if JS.present postal_code
                              then JS.push (JS.push [] (JS.the postal_code)) city
                              else JS.push [] city)
                             (JS.the state_province)
                else (if JS.present postal_code
                      then JS.push (JS.push [] (JS.the postal_code)) city
                      else JS.push [] city)).
  assert (Hparts : parts <> []).
  { unfold parts, JS.push.
    destruct (JS.present state_province), (JS.present postal_code);
      simpl; discriminate. }
  exists (JS.join ", " parts).
  apply isIn_countries in Hin.
  destruct Hin as [E|[E|E]]; rewrite E;
    [exists "United States"%string | exists "Canada"%string | exists "Mexico"%string];
    (split; [simpl; tauto|]);
    unfold parts; destruct (JS.present postal_code), (JS.present state_province);
      cbv zeta; fold parts;
      (rewrite join_push; [reflexivity|]); unfold JS.push; simpl; discriminate.
Qed.

End ValidatedLocation.

(** X16 at Toronto with its postal code and province. *)
Lemma validated_location_query_witness :
  Controller.validateLocation Doubles.trim "Origin" Doubles.Toronto
  = (Doubles.Toronto, [])
  /\ JS.present (Geocoding.city Doubles.Toronto) = true
  /\ JS.present (Geocoding.country Doubles.Toronto) = true
  /\ exists before name,
      In (JS.the (Geocoding.country Doubles.Toronto), name) Geocoding.countryNames
      /\ Geocoding.buildGeocodingQuery Doubles.prototype_member_text
           (Geocoding.city Doubles.Toronto)
           (Geocoding.state_province Doubles.Toronto)
           (Geocoding.postal_code Doubles.Toronto)
           (Geocoding.country Doubles.Toronto)
         = (before ++ ", " ++ name)%string.
Proof.
  split; [reflexivity|].
  exact (validated_location_query Doubles.trim Doubles.prototype_member_text
           "Origin" Doubles.Toronto Doubles.Toronto eq_refl).
Defined.

(* ================================================================== *)
(** * Properties of the request handlers *)
(* ================================================================== *)

Section CreateQuote.

Variable env : Pricing.Env.
Variable Number_toString : number -> string.
Variable prototype_member_text : string -> string.
Variable nominatim : string -> completion (option (list Nominatim.Place)).
Variable osrm : string -> completion (option OSRM.Data).
Variable ST_Distance : number -> number -> number -> number -> completion number.
Variable Row : Type.
Variable column : Row -> string -> property number.
Variable insert_quote : Controller.InsertValues -> completion Row.

Local Abbreviation geocode :=
  (Geocoding.geocodeLocation Number_toString prototype_member_text nominatim).
Local Abbreviation createQuote :=
  (Controller.createQuote env Number_toString prototype_member_text nominatim
                          osrm ST_Distance Row column insert_quote).

(** [calculateDistance] throws only when the routing call gives no route
    and the database fails, and then with the message of the database
    error behind a fixed prefix. *)
Lemma calculateDistance_Throw
      (originLat originLon destLat destLon : number) (error : Error) :
  calculateDistance Number_toString osrm ST_Distance
                    originLat originLon destLat destLon = Throw error ->
  Spec.no_route (osrm (OSRM_BASE_URL Number_toString
                                     originLat originLon destLat destLon))
  /\ exists cause,
      ST_Distance originLon originLat destLon destLat = Throw cause
      /\ error = new_Error ("Failed to calculate distance: " ++ message cause).
Proof.
  intros H.
  destruct (calculateDistance_cases Number_toString osrm ST_Distance
                                    originLat originLon destLat destLon)
    as [[r [_ Hr]]|[Hno Hgc]]; [congruence|].
  split; [exact Hno|].
  rewrite Hgc in H.
  unfold calculateGreatCircleDistance, query_distance in H.
  destruct (ST_Distance originLon originLat destLon destLat) as [metres|cause].
  - discriminate H.
  - exists cause. split; [reflexivity|].
    unfold bind, try_catch in H. now injection H as <-.
Qed.

(** X17: [createQuote] answers in one of five ways.  400 "Geocoding
    error" when the origin, or else the destination, cannot be geocoded;
    500 "Distance calculation error" only when the routing call gives no
    route and the database fails too; the error handler is reached only
    through an error of the INSERT; otherwise 201 with the inserted
    row.  Geocoding and distance errors never reach the error handler. *)
Theorem createQuote_replies (body : Controller.QuoteRequest) :
  (exists error,
      geocode (Controller.origin body) = Throw error
      /\ createQuote body
         = Controller.Json 400
             (Controller.ErrorBody
                "Geocoding error"
                ("Failed to geocode origin location: " ++ message error)))
  \/ (exists o error,
         geocode (Controller.origin body) = Return o
         /\ geocode (Controller.destination body) = Throw error
         /\ createQuote body
            = Controller.Json 400
                (Controller.ErrorBody
                   "Geocoding error"
                   ("Failed to geocode destination location: " ++ message error)))
  \/ (exists o d cause,
         geocode (Controller.origin body) = Return o
         /\ geocode (Controller.destination body) = Return d
         /\ Spec.no_route
              (osrm (OSRM_BASE_URL Number_toString
                       (Geocoding.latitude o) (Geocoding.longitude o)
                       (Geocoding.latitude d) (Geocoding.longitude d)))
         /\ ST_Distance (Geocoding.longitude o) (Geocoding.latitude o)
                        (Geocoding.longitude d) (Geocoding.latitude d)
            = Throw cause
         /\ createQuote body
            = Controller.Json 500
                (Controller.ErrorBody
                   "Distance calculation error"
                   ("Failed to calculate distance: " ++ message cause)))
  \/ (exists values error,
         insert_quote values = Throw error
         /\ createQuote body = Controller.Next error)
  \/ (exists values row origin_coordinates destination_coordinates accuracy,
         insert_quote values = Return row
         /\ createQuote body
            = Controller.Json 201
                (Controller.QuoteBody "Quote created successfully" row
                   origin_coordinates destination_coordinates accuracy)).
Proof.
  unfold Controller.createQuote.
  destruct (geocode (Controller.origin body)) as [o|error].
  2:{ left. now exists error. }
  destruct (geocode (Controller.destination body)) as [d|error].
  2:{ right. left. now exists o, error. }
  destruct (calculateDistance Number_toString osrm ST_Distance
              (Geocoding.latitude o) (Geocoding.longitude o)
              (Geocoding.latitude d) (Geocoding.longitude d))
    as [distance|error] eqn:D.
  2:{ right. right. left.
      apply calculateDistance_Throw in D. destruct D as [Hno [cause [Hdb ->]]].
      exists o, d, cause. repeat split; assumption. }
  right. right. right.
  unfold calculateQuoteAmount. cbn [bind].
  match goal with
  | |- context [insert_quote ?v] =>
      destruct (insert_quote v) as [row|error] eqn:I
  end.
  - right. do 5 eexists. split; [exact I|]. reflexivity.
  - left. do 2 eexists. split; [exact I|]. reflexivity.
Qed.

(** X18: what a 201 reply stands for.  Origin and destination were
    geocoded to points inside the North-America box, the row is the
    result of the INSERT, the inserted points are those coordinates, the
    inserted distances are the two values of the distance result, and
    the inserted amount is [calculateQuoteAmount] of the inserted miles,
    equipment type and weight.  The reply carries the accuracy of both
    geocodings. *)
Theorem created_quote_is_consistent
        (body : Controller.QuoteRequest) (text : string) (row : Row)
        (origin_coordinates destination_coordinates : Controller.Coordinates)
        (accuracy : string * string) :
  createQuote body
  = Controller.Json 201
      (Controller.QuoteBody text row origin_coordinates destination_coordinates
                            accuracy) ->
  exists o d distance values,
    geocode (Controller.origin body) = Return o
    /\ geocode (Controller.destination body) = Return d
    /\ Spec.in_North_America (Geocoding.latitude o) (Geocoding.longitude o)
    /\ Spec.in_North_America (Geocoding.latitude d) (Geocoding.longitude d)
    /\ calculateDistance Number_toString osrm ST_Distance
         (Geocoding.latitude o) (Geocoding.longitude o)
         (Geocoding.latitude d) (Geocoding.longitude d) = Return distance
    /\ insert_quote values = Return row
    /\ Controller.origin_coordinates values
       = Controller.coordinatesToPostGIS Number_toString
           (Geocoding.latitude o) (Geocoding.longitude o)
    /\ Controller.destination_coordinates values
       = Controller.coordinatesToPostGIS Number_toString
           (Geocoding.latitude d) (Geocoding.longitude d)
    /\ Controller.distance_miles values = get distance "distance_miles"
    /\ Controller.distance_kilometers values = get distance "distance_km"
    /\ Controller.quote_equipment_type values = Controller.equipment_type body
    /\ Controller.quote_total_weight values = Controller.total_weight body
    /\ calculateQuoteAmount env (ToNumber (Controller.distance_miles values))
                            (Controller.quote_equipment_type values)
                            (Controller.quote_total_weight values)
       = Return (Controller.quote_amount values)
    /\ accuracy = (Geocoding.accuracy o, Geocoding.accuracy d).
Proof.
  unfold Controller.createQuote.
  destruct (geocode (Controller.origin body)) as [o|error] eqn:O;
    [|discriminate].
  destruct (geocode (Controller.destination body)) as [d|error] eqn:De;
    [|discriminate].
  destruct (calculateDistance Number_toString osrm ST_Distance
              (Geocoding.latitude o) (Geocoding.longitude o)
              (Geocoding.latitude d) (Geocoding.longitude d))
    as [distance|error] eqn:D; [|discriminate].
  unfold calculateQuoteAmount. cbn [bind].
  match goal with
  | |- context [insert_quote ?v] =>
      set (values := v); destruct (insert_quote values) as [row'|error] eqn:I
  end; [|discriminate].
  cbn [bind]. intros [= _ <- _ _ <-].
  destruct (geocodeLocation_Return _ _ _ _ _ O) as [po [? [_ [Vo Eo]]]].
  destruct (geocodeLocation_Return _ _ _ _ _ De) as [pd [? [_ [Vd Ed]]]].
  apply validateNorthAmericaBounds_true in Vo, Vd.
  exists o, d, distance, values.
  split; [reflexivity|]. split; [reflexivity|].
  split; [rewrite Eo; exact Vo|]. split; [rewrite Ed; exact Vd|].
  repeat split; try reflexivity; assumption.
Qed.

(** X19: a route that carries no distance is not an error.  Kilometres,
    miles and the amount are all [NaN], the minimum quote is not
    applied, and the handler goes on to the INSERT with these values:
    the reply is 201 unless the database refuses them. *)
Theorem route_without_distance_is_quoted
        (body : Controller.QuoteRequest) (o d : Geocoding.Geocode)
        (route : OSRM.Route) (others : list OSRM.Route) :
  geocode (Controller.origin body) = Return o ->
  geocode (Controller.destination body) = Return d ->
  osrm (OSRM_BASE_URL Number_toString
          (Geocoding.latitude o) (Geocoding.longitude o)
          (Geocoding.latitude d) (Geocoding.longitude d))
  = Return (Some {| OSRM.routes := Some (route :: others) |}) ->
  OSRM.distance route = NaN ->
  exists values,
    Controller.distance_miles values = Own NaN
    /\ Controller.distance_kilometers values = Own NaN
    /\ Controller.quote_amount values = NaN
    /\ createQuote body
       = match insert_quote values with
         | Return row =>
             Controller.Json 201
               (Controller.QuoteBody "Quote created successfully" row
                  {| Controller.latitude :=
                       parseFloat (column row "origin_latitude");
                     Controller.longitude :=
                       parseFloat (column row "origin_longitude") |}
                  {| Controller.latitude :=
                       parseFloat (column row "destination_latitude");
                     Controller.longitude :=
                       parseFloat (column row "destination_longitude") |}
                  (Geocoding.accuracy o, Geocoding.accuracy d))
         | Throw error => Controller.Next error
         end.
Proof.
  intros Ho Hd Hosrm Hroute.
  unfold Controller.createQuote. rewrite Ho, Hd.
  rewrite (calculateDistance_driving Number_toString osrm _ _ _ _
             ST_Distance route others Hosrm), Hroute.
  change (toFixed2 (div NaN (Num 1000.0))) with NaN.
  change (toFixed2 (mul (div NaN (Num 1000.0)) (Num 0.621371))) with NaN.
  change (get [("distance_km", NaN); ("distance_miles", NaN)] "distance_miles")
    with (Own NaN).
  change (get [("distance_km", NaN); ("distance_miles", NaN)] "distance_km")
    with (Own NaN).
  cbn [ToNumber].
  assert (A : calculateQuoteAmount env NaN (Controller.equipment_type body)
                                   (Controller.total_weight body) = Return NaN).
  { unfold calculateQuoteAmount, quoteAfterEquipment.
    change (mul NaN (baseRatePerMile env)) with NaN.
    change (mul NaN (ToNumber (multiplier (Controller.equipment_type body))))
      with NaN.
    now rewrite NaN_propagates. }
  rewrite A. cbn [bind].
  match goal with
  | |- context [insert_quote ?v >>= _] => exists v
  end.
  repeat split.
  match goal with
  | |- context [insert_quote ?v] => destruct (insert_quote v); reflexivity
  end.
Qed.

End CreateQuote.

(** X18 at a request from Toronto to Vancouver, a route of 4,500 km and
    a table that returns what it is given: 2796.17 miles at 2.00 a mile
    for a dry van are 5592.34. *)
Lemma created_quote_is_consistent_witness :
  exists row origin_coordinates destination_coordinates,
    Controller.createQuote
      default_env Doubles.Number_toString Doubles.prototype_member_text
      Doubles.nominatim_postal Doubles.osrm_4500km Doubles.ST_Distance
      Controller.InsertValues Doubles.column Doubles.insert_quote
      Doubles.Toronto_Vancouver
    = Controller.Json 201
        (Controller.QuoteBody "Quote created successfully" row
           origin_coordinates destination_coordinates
           ("postal_code", "postal_code"))
    /\ Controller.quote_amount row = Num (Qred 5592.34)
    /\ exists o d distance values,
        Geocoding.geocodeLocation
          Doubles.Number_toString Doubles.prototype_member_text
          Doubles.nominatim_postal
          (Controller.origin Doubles.Toronto_Vancouver) = Return o
        /\ Geocoding.geocodeLocation
             Doubles.Number_toString Doubles.prototype_member_text
             Doubles.nominatim_postal
             (Controller.destination Doubles.Toronto_Vancouver) = Return d
        /\ Spec.in_North_America (Geocoding.latitude o) (Geocoding.longitude o)
        /\ Spec.in_North_America (Geocoding.latitude d) (Geocoding.longitude d)
        /\ calculateDistance Doubles.Number_toString Doubles.osrm_4500km
             Doubles.ST_Distance
             (Geocoding.latitude o) (Geocoding.longitude o)
             (Geocoding.latitude d) (Geocoding.longitude d) = Return distance
        /\ Doubles.insert_quote values = Return row
        /\ Controller.origin_coordinates values
           = Controller.coordinatesToPostGIS Doubles.Number_toString
               (Geocoding.latitude o) (Geocoding.longitude o)
        /\ Controller.destination_coordinates values
           = Controller.coordinatesToPostGIS Doubles.Number_toString
               (Geocoding.latitude d) (Geocoding.longitude d)
        /\ Controller.distance_miles values = get distance "distance_miles"
        /\ Controller.distance_kilometers values = get distance "distance_km"
        /\ Controller.quote_equipment_type values
           = Controller.equipment_type Doubles.Toronto_Vancouver
        /\ Controller.quote_total_weight values
           = Controller.total_weight Doubles.Toronto_Vancouver
        /\ calculateQuoteAmount default_env
             (ToNumber (Controller.distance_miles values))
             (Controller.quote_equipment_type values)
             (Controller.quote_total_weight values)
           = Return (Controller.quote_amount values)
        /\ ("postal_code", "postal_code")
           = (Geocoding.accuracy o, Geocoding.accuracy d).
Proof.
  eexists. eexists. eexists.
  split; [reflexivity|]. split; [reflexivity|].
  eapply (created_quote_is_consistent
            default_env Doubles.Number_toString Doubles.prototype_member_text
            Doubles.nominatim_postal Doubles.osrm_4500km Doubles.ST_Distance
            Controller.InsertValues Doubles.column Doubles.insert_quote
            Doubles.Toronto_Vancouver).
  reflexivity.
Defined.

(** X19 at the same request and a route without a distance. *)
Lemma route_without_distance_is_quoted_witness :
  (Geocoding.geocodeLocation
     Doubles.Number_toString Doubles.prototype_member_text
     Doubles.nominatim_postal Doubles.Toronto
   = Return {| Geocoding.latitude := Num 43.6532;
               Geocoding.longitude := Num (-79.3832);
               Geocoding.accuracy := "postal_code";
               Geocoding.display_name := "Toronto, Ontario, Canada" |}
   /\ Geocoding.geocodeLocation
        Doubles.Number_toString Doubles.prototype_member_text
        Doubles.nominatim_postal Doubles.Vancouver
      = Return {| Geocoding.latitude := Num 49.2827;
                  Geocoding.longitude := Num (-123.1216);
                  Geocoding.accuracy := "postal_code";
                  Geocoding.display_name := "Vancouver, British Columbia, Canada" |}
   /\ Doubles.osrm_no_distance
        (OSRM_BASE_URL Doubles.Number_toString
           (Num 43.6532) (Num (-79.3832)) (Num 49.2827) (Num (-123.1216)))
      = Return (Some {| OSRM.routes := Some [ {| OSRM.distance := NaN |} ] |}))
  /\ exists values,
      Controller.distance_miles values = Own NaN
      /\ Controller.distance_kilometers values = Own NaN
      /\ Controller.quote_amount values = NaN
      /\ Controller.createQuote
           default_env Doubles.Number_toString Doubles.prototype_member_text
           Doubles.nominatim_postal Doubles.osrm_no_distance Doubles.ST_Distance
           Controller.InsertValues Doubles.column Doubles.insert_quote
           Doubles.Toronto_Vancouver
         = match Doubles.insert_quote values with
           | Return row =>
               Controller.Json 201
                 (Controller.QuoteBody "Quote created successfully" row
                    {| Controller.latitude :=
                         parseFloat (Doubles.column row "origin_latitude");
                       Controller.longitude :=
                         parseFloat (Doubles.column row "origin_longitude") |}
                    {| Controller.latitude :=
                         parseFloat (Doubles.column row "destination_latitude");
                       Controller.longitude :=
                         parseFloat (Doubles.column row "destination_longitude") |}
                    ("postal_code", "postal_code"))
           | Throw error => Controller.Next error
           end.
Proof.
  split; [repeat split|].
  exact (route_without_distance_is_quoted
           default_env Doubles.Number_toString Doubles.prototype_member_text
           Doubles.nominatim_postal Doubles.osrm_no_distance Doubles.ST_Distance
           Controller.InsertValues Doubles.column Doubles.insert_quote
           Doubles.Toronto_Vancouver _ _ _ _ eq_refl eq_refl eq_refl eq_refl).
Defined.

Lemma Qred_inject_Z (q : Q) (z : Z) : q == inject_Z z -> Qred q = inject_Z z.
Proof.
  intros H. rewrite (Qred_complete _ _ H).
  unfold Qred, inject_Z.
  pose proof (Z.ggcd_gcd z 1) as G.
  pose proof (Z.ggcd_correct_divisors z 1) as D.
  change (Z.pos 1) with 1%Z.
  destruct (Z.ggcd z 1) as [g [a b]]. cbn [fst snd] in *.
  rewrite Z.gcd_1_r in G. subst g. destruct D as [Da Db].
  rewrite Z.mul_1_l in Da, Db. now subst a b.
Qed.

Lemma positive_is_truthy (z : Z) (d : number) :
  (1 <= z)%Z -> or_else (Num (inject_Z z)) d = Num (inject_Z z).
Proof.
  intros H. destruct z as [|z|z]; try lia. reflexivity.
Qed.

Section GetAllQuotes.

Variable Row : Type.
Variable column : Row -> string -> property number.
Variable count_quotes : completion number.
Variable select_quotes : number -> number -> completion (list Row).

Local Abbreviation getAllQuotes :=
  (Controller.getAllQuotes Row column count_quotes select_quotes).

(** X20: for a page [p >= 1], a limit [l >= 1] and a table of [t] rows,
    [getAllQuotes] reads [l] rows from offset [(p - 1) * l] and reports
    a whole number [T] of pages with [(T - 1) * l < t <= T * l]: the
    pages 1 to [T] cover the table and page [T] is not empty (for an
    empty table [T] is 0). *)
Theorem pages_cover_the_table (p l t : Z) (rows : list Row) :
  (1 <= p)%Z -> (1 <= l)%Z -> (0 <= t)%Z ->
  count_quotes = Return (Num (inject_Z t)) ->
  select_quotes (Num (inject_Z l)) (Num (inject_Z ((p - 1) * l))) = Return rows ->
  exists T : Z,
    ((T - 1) * l < t <= T * l)%Z
    /\ getAllQuotes (Num (inject_Z p)) (Num (inject_Z l))
       = Controller.Json 200
           (Controller.ListBody
              (map (fun quote =>
                      (quote,
                       Controller.coordinates_of Row column quote
                         "origin_latitude" "origin_longitude",
                       Controller.coordinates_of Row column quote
                         "destination_latitude" "destination_longitude"))
                   rows)
              {| Controller.page := Num (inject_Z p);
                 Controller.limit := Num (inject_Z l);
                 Controller.total := Num (inject_Z t);
                 Controller.totalPages := Num (inject_Z T) |}).
Proof.
  intros Hp Hl Ht Hcount Hselect.
  set (x := Qred (inject_Z t / inject_Z l)).
  assert (Hlq : 0 < inject_Z l).
  { change 0 with (inject_Z 0). rewrite <- Zlt_Qlt. lia. }
  assert (Hx : x * inject_Z l == inject_Z t).
  { unfold x. rewrite Qred_correct. field. lra. }
  exists (Qceiling x). split.
  - pose proof (Qle_ceiling x) as H1. pose proof (Qceiling_lt x) as H2.
    split.
    + apply (Qmult_lt_compat_r _ _ (inject_Z l) Hlq) in H2.
      rewrite Hx, <- inject_Z_mult, <- Zlt_Qlt in H2. exact H2.
    + apply (Qmult_le_compat_r _ _ (inject_Z l)) in H1; [|lra].
      rewrite Hx, <- inject_Z_mult, <- Zle_Qle in H1. exact H1.
  - unfold Controller.getAllQuotes.
    rewrite !positive_is_truthy by assumption.
    rewrite Hcount. cbn [bind].
    assert (E : mul (sub (Num (inject_Z p)) (Num 1)) (Num (inject_Z l))
                = Num (inject_Z ((p - 1) * l))).
    { rewrite sub_Num, mul_Num. f_equal. apply Qred_inject_Z.
      rewrite Qred_correct, inject_Z_mult.
      unfold Z.sub. rewrite inject_Z_plus, inject_Z_opp. reflexivity. }
    rewrite E, Hselect. cbn [bind].
    assert (D : div (Num (inject_Z t)) (Num (inject_Z l)) = Num x).
    { unfold div. destruct l as [|l|l]; try lia. reflexivity. }
    rewrite D. reflexivity.
Qed.

End GetAllQuotes.

(** X20 at page 2 of 25 rows read ten at a time: three pages. *)
Lemma pages_cover_the_table_witness :
  ((1 <= 2)%Z /\ (1 <= 10)%Z /\ (0 <= 25)%Z
   /\ Doubles.count_quotes = Return (Num (inject_Z 25))
   /\ Doubles.select_quotes (Num (inject_Z 10)) (Num (inject_Z ((2 - 1) * 10)))
      = Return [])
  /\ exists T : Z,
      ((T - 1) * 10 < 25 <= T * 10)%Z
      /\ Controller.getAllQuotes Controller.InsertValues Doubles.column
           Doubles.count_quotes Doubles.select_quotes
           (Num (inject_Z 2)) (Num (inject_Z 10))
         = Controller.Json 200
             (Controller.ListBody
                (map (fun quote =>
                        (quote,
                         Controller.coordinates_of Controller.InsertValues
                           Doubles.column quote
                           "origin_latitude" "origin_longitude",
                         Controller.coordinates_of Controller.InsertValues
                           Doubles.column quote
                           "destination_latitude" "destination_longitude"))
                     [])
                {| Controller.page := Num (inject_Z 2);
                   Controller.limit := Num (inject_Z 10);
                   Controller.total := Num (inject_Z 25);
                   Controller.totalPages := Num (inject_Z T) |}).
Proof.
  assert (H1 : (1 <= 2)%Z) by lia.
  assert (H2 : (1 <= 10)%Z) by lia.
  assert (H3 : (0 <= 25)%Z) by lia.
  split; [repeat split; assumption|].
  exact (pages_cover_the_table
           Controller.InsertValues Doubles.column
           Doubles.count_quotes Doubles.select_quotes
           2 10 25 [] H1 H2 H3 eq_refl eq_refl).
Defined.
